(** * PyTorch/CIFAR10/main.py: a shallow embedding of the training script

    The script trains a modified VGG16 or a fully connected network on
    CIFAR10.  Everything numerical (the networks, autograd, the SGD update,
    the random generator) belongs to PyTorch; the script itself is the
    orchestration around it: two module-level flags and an assertion, a
    configuration object, a data pipeline, an evaluator, checkpoint
    save/load and the epoch/batch loop of [main].

    The embedding keeps that division.  The script's own functions are
    written out as Rocq functions in a state-and-exception monad; the
    framework's operations are parameters of a section, together with the few
    facts about them the script relies on. *)

From Stdlib Require Import ZArith QArith Lia List Sorting.Permutation.
From stdpp Require Import base option list gmap strings.

Open Scope Z_scope.

(** ** Python exceptions and results *)

Inductive PyExn : Type :=
  | AssertionError
  | ZeroDivisionError
  | ValueError
  | RuntimeError
  | IndexError
  | FileNotFoundError
  | UnboundLocalError.

Inductive Result (A : Type) : Type :=
  | Ok (a : A)
  | Raise (e : PyExn).
Arguments Ok {A} a.
Arguments Raise {A} e.

(** ** Module level: the two selection flags and the assertion (lines 20-23)

    [train_CNN] and [train_FC] are Python booleans.  [a or b] yields [a] when
    [a] is truthy and [b] otherwise; comparing a boolean with the integer 1
    is true exactly for [True]. *)

Record Flags := mkFlags { train_CNN : bool; train_FC : bool }.

Definition py_or (a b : bool) : bool := if a then a else b.

Definition py_eq_1 (v : bool) : bool := if v then true else false.

(** [assert (train_CNN or train_FC) == 1] *)
Definition module_assert (fl : Flags) : Result unit :=
  if py_eq_1 (py_or (train_CNN fl) (train_FC fl)) then Ok tt
  else Raise AssertionError.

(** ** Configuration object (CNN_CIFAR10.__init__, lines 26-38)

    Python floats that the script only stores and copies are kept as exact
    rationals; device and dtype play no part in the control flow and are
    left out. *)

Record Config := mkConfig {
  learning_rate : Q;
  drop_rate : Q;
  weight_decay : Q;
  num_epochs : Z;
  batch_size : Z;
  num_workers : Z;
  save_model : bool;
  shuffle : bool;
  pin_memory : bool;
  checkpoint_file : string
}.

Definition init_config : Config := {|
  learning_rate := 1 # 1000;
  drop_rate := 0;
  weight_decay := 0;
  num_epochs := 100000;
  batch_size := 64;
  num_workers := 0;
  save_model := false;
  shuffle := true;
  pin_memory := true;
  checkpoint_file := "checkpoint/CIFAR10_VGG16"
|}.

(** ** Printed lines and framework calls

    [Output] is what the script prints, one constructor per [print]
    statement.  [Call] names the framework operations the loops invoke; the
    state keeps the sequence of calls made so that the number and the order
    of the steps of an epoch can be stated. *)

Inductive Output : Type :=
  | PrintGot (num_correct num_samples : Z) (acc : Q)
  | PrintBlank
  | PrintSaving
  | PrintLoaded
  | PrintMeanLoss (mean : Q)
  | PrintValidation
  | PrintTrainAcc (acc : Q)
  | PrintNewline.

Inductive Call : Type :=
  | CallForward
  | CallCriterion
  | CallZeroGrad
  | CallBackward
  | CallStep.

Inductive Arch : Type := VGG16_modified | FullyNet.

(** One parameter group of an optimizer, the dictionary with keys
    ['params'], ['lr'], ['momentum'], ['dampening'], ['weight_decay'] and
    ['nesterov'].  Parameters are named by their position in
    [model.parameters()]. *)
Record ParamGroup := mkGroup {
  pg_params : list nat;
  pg_lr : Q;
  pg_momentum : Q;
  pg_dampening : Q;
  pg_weight_decay : Q;
  pg_nesterov : bool
}.

Definition set_lr (v : Q) (g : ParamGroup) : ParamGroup :=
  mkGroup (pg_params g) v (pg_momentum g) (pg_dampening g)
          (pg_weight_decay g) (pg_nesterov g).

Definition set_weight_decay (v : Q) (g : ParamGroup) : ParamGroup :=
  mkGroup (pg_params g) (pg_lr g) (pg_momentum g) (pg_dampening g)
          v (pg_nesterov g).

Definition set_params (ps : list nat) (g : ParamGroup) : ParamGroup :=
  mkGroup ps (pg_lr g) (pg_momentum g) (pg_dampening g)
          (pg_weight_decay g) (pg_nesterov g).

(** ** Helpers on Python numbers and tensors of labels *)

(** [range(n)] *)
Definition range (n : Z) : list Z := map Z.of_nat (seq 0 (Z.to_nat n)).

(** True division: raises on a zero divisor. *)
Definition py_truediv (a b : Q) : Result Q :=
  if Qeq_bool b 0 then Raise ZeroDivisionError else Ok (a / b)%Q.

(** [sum(losses)] for a list of floats *)
Definition py_sum (l : list Q) : Q := fold_left Qplus l 0%Q.

Definition ceil_div (n b : Z) : Z := (n + b - 1) / b.

(** Number of positions at which two label vectors agree. *)
Fixpoint count_eq (p y : list Z) : Z :=
  match p, y with
  | a :: p', b :: y' => (if decide (a = b) then 1 else 0) + count_eq p' y'
  | _, _ => 0
  end.

(** [(preds == y).sum()] on one-dimensional tensors: elementwise on equal
    sizes, a size-one operand is broadcast, anything else is a shape
    error. *)
Definition eq_sum (p y : list Z) : Result Z :=
  if decide (length p = length y) then Ok (count_eq p y)
  else match p, y with
       | [a], _ => Ok (count_eq (replicate (length y) a) y)
       | _, [b] => Ok (count_eq p (replicate (length p) b))
       | _, _ => Raise RuntimeError
       end.

(** [scores.max(1)] on one row: the index of the first maximal score. *)
Fixpoint argmax_from (best : Q) (besti i : Z) (row : list Q) : Z :=
  match row with
  | [] => besti
  | s :: row' =>
      if Qlt_le_dec best s then argmax_from s i (i + 1) row'
      else argmax_from best besti (i + 1) row'
  end.

Definition argmax (row : list Q) : Z :=
  match row with
  | [] => 0
  | s :: row' => argmax_from s 0 1 row'
  end.

(** [torch.utils.data.BatchSampler] with [drop_last=False]: indices are
    collected into [batch] and a batch is yielded each time it reaches
    [bsz]; a last, shorter batch is yielded if it is not empty. *)
Fixpoint batch_sampler (bsz : nat) (sampler batch : list nat)
  : list (list nat) :=
  match sampler with
  | [] => match batch with [] => [] | _ => [batch] end
  | idx :: rest =>
      let batch' := batch ++ [idx] in
      if decide (length batch' = bsz) then batch' :: batch_sampler bsz rest []
      else batch_sampler bsz rest batch'
  end.

(** [random_split]'s slicing of the permuted indices into consecutive
    pieces of the given lengths. *)
Fixpoint split_lengths (lengths : list Z) (indices : list nat)
  : list (list nat) :=
  match lengths with
  | [] => []
  | n :: rest =>
      take (Z.to_nat n) indices :: split_lengths rest (drop (Z.to_nat n) indices)
  end.

Definition sum_lengths (lengths : list Z) : Z := fold_right Z.add 0 lengths.

(** ** The framework

    What the script takes from PyTorch and torchvision, as an interface.  The
    networks are known to the script only through these operations: a forward
    pass yields one row of class scores per input row and the state
    dictionary after the pass (a pass in training mode may update buffers),
    [criterion] is the value of the cross-entropy loss, [backward] the
    gradient accumulated onto the one present, [sgd_step] one update of
    [torch.optim.SGD].  [fullyNet_init] stands for the constructor of the
    repository's [simple_fullynet.fullyNet], whose file is not part of the
    sources at hand. *)

Class Framework : Type := {
  Raw : Type;
  Input : Type;
  Tensor : Type;
  Grad : Type;
  Rng : Type;
  to_tensor : Raw -> Input;
  normalize : Q * Q * Q -> Q * Q * Q -> Input -> Input;
  flatten : Input -> Input;
  tensor_shape : Tensor -> list Z;
  vgg16_pretrained : gmap string Tensor;
  linear_4096_10 : Tensor * Tensor;
  fullyNet_init : Z -> Q -> bool -> gmap string Tensor;
  forward : Arch -> bool -> gmap string Tensor -> list Input
            -> list (list Q) * gmap string Tensor;
  criterion : list (list Q) -> list Z -> Q;
  backward : Arch -> gmap string Tensor -> list Input -> list Z
             -> option Grad -> Grad;
  sgd_step : list ParamGroup -> gmap nat Tensor -> gmap string Tensor
             -> option Grad -> gmap string Tensor * gmap nat Tensor;
  randperm : nat -> Rng -> list nat * Rng
}.

(** The facts about the framework that the properties below rest on. *)
Class FrameworkLaws (F : Framework) : Prop := {
  forward_rows : forall a t sd x, length (forward a t sd x).1 = length x;
  forward_eval_frozen : forall a sd x, (forward a false sd x).2 = sd;
  randperm_perm : forall n g, Permutation (randperm n g).1 (seq 0 n)
}.

Section Script.
Context `{F : Framework}.

(** ** Objects *)

Record Model := mkModel {
  m_arch : Arch;
  m_state : gmap string Tensor;
  m_grad : option Grad;
  m_training : bool
}.

(** An optimizer: its parameter groups and its per-parameter state (the
    momentum buffers of SGD), keyed like the groups' parameters. *)
Record Optimizer := mkOptimizer {
  param_groups : list ParamGroup;
  o_state : gmap nat Tensor
}.

(** [optimizer.state_dict()]: the dictionary with keys ['state'] and
    ['param_groups']. *)
Record OptStateDict := mkOptStateDict {
  sd_state : gmap nat Tensor;
  sd_param_groups : list ParamGroup
}.

(** The dictionary written by [save_checkpoint]. *)
Record Checkpoint := mkCheckpoint {
  ck_state_dict : gmap string Tensor;
  ck_epoch : Z;
  ck_optimizer : OptStateDict
}.

(** A dataset with its transform, a subset of it by indices, and a
    [DataLoader] over either. *)
Record Dataset := mkDataset {
  d_items : list (Raw * Z);
  d_transform : Raw -> Input
}.

Record Subset := mkSubset {
  ss_dataset : Dataset;
  ss_indices : list nat
}.

Inductive Data : Type :=
  | Whole (d : Dataset)
  | Part (s : Subset).

Record DataLoader := mkDataLoader {
  dl_dataset : Data;
  dl_batch_size : Z;
  dl_shuffle : bool;
  dl_num_workers : Z
}.

(** A batch [(x, y)]: the rows of the input tensor and the label tensor. *)
Definition Batch : Type := list Input * list Z.

(** The CIFAR10 files under [./CIFAR10]. *)
Record Cifar10 := mkCifar10 {
  cifar_train : list (Raw * Z);
  cifar_test : list (Raw * Z)
}.

(** ** State

    [Sys] is what outlives a call of [main]: the checkpoint files, the
    global random generator, the printed lines and the record of framework
    calls.  [St] adds the two objects [main] creates and every method
    mutates in place, the model and the optimizer. *)

Record Sys := mkSys {
  sys_fs : gmap string Checkpoint;
  sys_rng : Rng;
  sys_out : list Output;
  sys_calls : list Call
}.

Record St := mkSt {
  model : Model;
  optimizer : Optimizer;
  fs : gmap string Checkpoint;
  rng : Rng;
  out : list Output;
  calls : list Call
}.

Definition enter (m : Model) (o : Optimizer) (s : Sys) : St :=
  mkSt m o (sys_fs s) (sys_rng s) (sys_out s) (sys_calls s).

Definition leave (st : St) : Sys :=
  mkSys (fs st) (rng st) (out st) (calls st).

Definition set_model (m : Model) (st : St) : St :=
  mkSt m (optimizer st) (fs st) (rng st) (out st) (calls st).

Definition set_optimizer (o : Optimizer) (st : St) : St :=
  mkSt (model st) o (fs st) (rng st) (out st) (calls st).

Definition set_fs (f : gmap string Checkpoint) (st : St) : St :=
  mkSt (model st) (optimizer st) f (rng st) (out st) (calls st).

Definition set_rng (g : Rng) (st : St) : St :=
  mkSt (model st) (optimizer st) (fs st) g (out st) (calls st).

Definition add_out (o : Output) (st : St) : St :=
  mkSt (model st) (optimizer st) (fs st) (rng st) (out st ++ [o]) (calls st).

Definition add_call (c : Call) (st : St) : St :=
  mkSt (model st) (optimizer st) (fs st) (rng st) (out st) (calls st ++ [c]).

(** ** The monad: state and Python exceptions *)

Definition M (A : Type) : Type := St -> Result A * St.

Definition ret {A} (a : A) : M A := fun st => (Ok a, st).

Definition raise {A} (e : PyExn) : M A := fun st => (Raise e, st).

Definition bind {A B} (m : M A) (k : A -> M B) : M B :=
  fun st =>
    match m st with
    | (Ok a, st') => k a st'
    | (Raise e, st') => (Raise e, st')
    end.

Definition lift {A} (r : Result A) : M A := fun st => (r, st).

Definition modify (f : St -> St) : M unit := fun st => (Ok tt, f st).

Definition print (o : Output) : M unit := modify (add_out o).

End Script.

Declare Scope py_scope.
Delimit Scope py_scope with py.
Notation "x <- m ;; k" := (bind m (fun x => k))
  (at level 100, m at next level, right associativity) : py_scope.
Notation "m ;; k" := (bind m (fun _ => k))
  (at level 100, right associativity) : py_scope.
Open Scope py_scope.

Section Methods.
Context `{F : Framework}.

(** for-loops over a list: with and without loop-carried variables *)
Fixpoint for_each {A} (l : list A) (body : A -> M unit) : M unit :=
  match l with
  | [] => ret tt
  | a :: l' => body a ;; for_each l' body
  end.

Fixpoint for_fold {A B} (l : list A) (acc : B) (body : B -> A -> M B) : M B :=
  match l with
  | [] => ret acc
  | a :: l' => acc' <- body acc a ;; for_fold l' acc' body
  end.

Fixpoint map_result {A B} (f : A -> Result B) (l : list A) : Result (list B) :=
  match l with
  | [] => Ok []
  | a :: l' =>
      match f a with
      | Raise e => Raise e
      | Ok b => match map_result f l' with
                | Raise e => Raise e
                | Ok bs => Ok (b :: bs)
                end
      end
  end.

(** ** Framework objects in use *)

(** [model.eval()], [model.train()] *)
Definition set_training (b : bool) (m : Model) : Model :=
  mkModel (m_arch m) (m_state m) (m_grad m) b.

Definition model_eval : M unit :=
  modify (fun st => set_model (set_training false (model st)) st).

Definition model_train : M unit :=
  modify (fun st => set_model (set_training true (model st)) st).

(** [scores = model(x)] *)
Definition call_model (x : list Input) : M (list (list Q)) :=
  fun st =>
    let m := model st in
    let r := forward (m_arch m) (m_training m) (m_state m) x in
    (Ok r.1,
     add_call CallForward
       (set_model (mkModel (m_arch m) r.2 (m_grad m) (m_training m)) st)).

(** [loss = criterion(scores, target)]; the value is [loss.item()] *)
Definition call_criterion (scores : list (list Q)) (target : list Z) : M Q :=
  fun st => (Ok (criterion scores target), add_call CallCriterion st).

(** [optimizer.zero_grad()] *)
Definition zero_grad : M unit :=
  modify (fun st =>
    let m := model st in
    add_call CallZeroGrad
      (set_model (mkModel (m_arch m) (m_state m) None (m_training m)) st)).

(** [loss.backward()] for the loss of [data] against [target] *)
Definition loss_backward (data : list Input) (target : list Z) : M unit :=
  modify (fun st =>
    let m := model st in
    let g := backward (m_arch m) (m_state m) data target (m_grad m) in
    add_call CallBackward
      (set_model (mkModel (m_arch m) (m_state m) (Some g) (m_training m)) st)).

(** [optimizer.step()] *)
Definition optimizer_step : M unit :=
  modify (fun st =>
    let m := model st in
    let o := optimizer st in
    let r := sgd_step (param_groups o) (o_state o) (m_state m) (m_grad m) in
    add_call CallStep
      (set_optimizer (mkOptimizer (param_groups o) r.2)
         (set_model (mkModel (m_arch m) r.1 (m_grad m) (m_training m)) st))).

(** [torch.optim.SGD(model.parameters(), lr=..., weight_decay=...)]: one
    group over all parameters, no momentum, empty state; negative
    hyperparameters are rejected. *)
Definition SGD (m : Model) (lr wd : Q) : Result Optimizer :=
  if Qlt_le_dec lr 0 then Raise ValueError
  else if Qlt_le_dec wd 0 then Raise ValueError
  else Ok (mkOptimizer
             [mkGroup (seq 0 (size (m_state m))) lr 0 0 wd false] ∅).

Definition model_state_dict (m : Model) : gmap string Tensor := m_state m.

Definition optimizer_state_dict (o : Optimizer) : OptStateDict :=
  mkOptStateDict (o_state o) (param_groups o).

Definition shapes_agree (sd cur : gmap string Tensor) : bool :=
  bool_decide (map_Forall (fun k t => tensor_shape <$> sd !! k = Some (tensor_shape t)) cur).

(** [model.load_state_dict(sd)] (strict): the keys and the shapes must be
    those of the model. *)
Definition load_state_dict (sd : gmap string Tensor) (m : Model) : Result Model :=
  if bool_decide (dom sd = dom (m_state m)) && shapes_agree sd (m_state m)
  then Ok (mkModel (m_arch m) sd (m_grad m) (m_training m))
  else Raise RuntimeError.

(** [optimizer.load_state_dict(sd)]: the number of groups and the size of
    each group must agree; the state is replaced, and each saved group
    replaces the current one but keeps the current group's parameters. *)
Definition same_sizes (groups saved : list ParamGroup) : bool :=
  forallb (fun p => bool_decide (length (pg_params p.1) = length (pg_params p.2)))
          (zip groups saved).

Definition update_group (group new_group : ParamGroup) : ParamGroup :=
  set_params (pg_params group) new_group.

Definition optimizer_load_state_dict (sd : OptStateDict) (o : Optimizer)
  : Result Optimizer :=
  let groups := param_groups o in
  let saved_groups := sd_param_groups sd in
  if negb (bool_decide (length groups = length saved_groups)) then Raise ValueError
  else if negb (same_sizes groups saved_groups) then Raise ValueError
  else Ok (mkOptimizer (zip_with update_group groups saved_groups) (sd_state sd)).

(** [torch.save(obj, filename)] overwrites the file; [torch.load] fails on a
    missing one. *)
Definition torch_save (obj : Checkpoint) (filename : string) : M unit :=
  modify (fun st => set_fs (<[filename := obj]> (fs st)) st).

Definition torch_load (filename : string) : M Checkpoint :=
  fun st =>
    match fs st !! filename with
    | Some c => (Ok c, st)
    | None => (Raise FileNotFoundError, st)
    end.

(** ** Data: datasets, [random_split], [DataLoader] *)

Definition data_len (d : Data) : nat :=
  match d with
  | Whole ds => length (d_items ds)
  | Part s => length (ss_indices s)
  end.

Definition dataset_get (ds : Dataset) (i : nat) : Result (Input * Z) :=
  match d_items ds !! i with
  | Some (img, label) => Ok (d_transform ds img, label)
  | None => Raise IndexError
  end.

Definition data_get (d : Data) (i : nat) : Result (Input * Z) :=
  match d with
  | Whole ds => dataset_get ds i
  | Part s =>
      match ss_indices s !! i with
      | Some j => dataset_get (ss_dataset s) j
      | None => Raise IndexError
      end
  end.

(** [torch.utils.data.random_split(dataset, lengths)] *)
Definition random_split (ds : Dataset) (lengths : list Z) : M (list Subset) :=
  fun st =>
    if decide (sum_lengths lengths = Z.of_nat (length (d_items ds))) then
      let r := randperm (Z.to_nat (sum_lengths lengths)) (rng st) in
      (Ok (map (mkSubset ds) (split_lengths lengths r.1)), set_rng r.2 st)
    else (Raise ValueError, st).

(** [DataLoader(dataset=..., batch_size=..., shuffle=..., num_workers=...)] *)
Definition DataLoader_init (d : Data) (bsz : Z) (shuf : bool) (workers : Z)
  : Result DataLoader :=
  if decide (workers < 0) then Raise ValueError
  else if decide (bsz <= 0) then Raise ValueError
  else Ok (mkDataLoader d bsz shuf workers).

(** One pass over a loader.  The sampler is sequential, or a fresh random
    permutation when the loader shuffles; indices are grouped by
    [batch_sampler] and each group is fetched and collated into a batch.
    The batches of a pass are produced here all at once. *)
Definition sampler (dl : DataLoader) (g : Rng) : list nat * Rng :=
  if dl_shuffle dl then randperm (data_len (dl_dataset dl)) g
  else (seq 0 (data_len (dl_dataset dl)), g).

Definition collate (samples : list (Input * Z)) : Batch :=
  (map fst samples, map snd samples).

Definition fetch_batch (d : Data) (idxs : list nat) : Result Batch :=
  match map_result (data_get d) idxs with
  | Ok samples => Ok (collate samples)
  | Raise e => Raise e
  end.

Definition batches_of (dl : DataLoader) (order : list nat) : Result (list Batch) :=
  map_result (fetch_batch (dl_dataset dl))
             (batch_sampler (Z.to_nat (dl_batch_size dl)) order []).

Definition iter_loader (dl : DataLoader) : M (list Batch) :=
  fun st =>
    let s := sampler dl (rng st) in
    (batches_of dl s.1, set_rng s.2 st).

End Methods.

(** ** The class CNN_CIFAR10 *)

Section CNN_CIFAR10.
Context `{F : Framework}.

(** [setup_model] (lines 40-57).  The replaced pooling and dropout layers
    have no parameters; the new last layer brings its own weight and bias.
    With neither flag set the local [model] is unbound at [return]. *)
Definition setup_model (fl : Flags) : Result Model :=
  if train_CNN fl then
    Ok (mkModel VGG16_modified
          (<["classifier.6.bias" := linear_4096_10.2]>
             (<["classifier.6.weight" := linear_4096_10.1]> vgg16_pretrained))
          None true)
  else if train_FC fl then
    Ok (mkModel FullyNet (fullyNet_init (32 * 32 * 3) 0 true) None true)
  else Raise UnboundLocalError.

(** [transformations] (lines 71-82) *)
Definition cifar_mean : Q * Q * Q := (4914 # 10000, 4822 # 10000, 4465 # 10000)%Q.
Definition cifar_std : Q * Q * Q := (247 # 1000, 243 # 1000, 261 # 1000)%Q.

Definition transformations : (Raw -> Input) * (Raw -> Input) :=
  let transform_train := fun r => normalize cifar_mean cifar_std (to_tensor r) in
  let transform_test := fun r => normalize cifar_mean cifar_std (to_tensor r) in
  (transform_train, transform_test).

(** [torchvision.datasets.CIFAR10('./CIFAR10', train=..., transform=...)] *)
Definition CIFAR10 (src : Cifar10) (train : bool) (transform : Raw -> Input)
  : Dataset :=
  mkDataset (if train then cifar_train src else cifar_test src) transform.

(** [load_data] (lines 59-68).  No loader is given a [shuffle] argument, so
    each takes the constructor's default, [False]. *)
Definition load_data (cfg : Config) (src : Cifar10)
  : M (DataLoader * DataLoader * DataLoader) :=
  let transform_train := transformations.1 in
  parts <- random_split (CIFAR10 src true transform_train) [40000; 10000] ;;
  match parts with
  | [train_data; validation_data] =>
      let test_data := CIFAR10 src false transform_train in
      train_loader <- lift (DataLoader_init (Part train_data) (batch_size cfg)
                              false (num_workers cfg)) ;;
      validation_loader <- lift (DataLoader_init (Part validation_data)
                                   (batch_size cfg) false (num_workers cfg)) ;;
      test_loader <- lift (DataLoader_init (Whole test_data) (batch_size cfg)
                             false (num_workers cfg)) ;;
      ret (train_loader, validation_loader, test_loader)
  | _ => raise ValueError
  end.

(** [check_accuracy] (lines 84-106) *)
Definition accuracy_step (fl : Flags) (acc : Z * Z) (b : Batch) : M (Z * Z) :=
  let '(num_correct, num_samples) := acc in
  let '(x, y) := b in
  let x := if train_FC fl then map flatten x else x in
  scores <- call_model x ;;
  let preds := map argmax scores in
  c <- lift (eq_sum preds y) ;;
  ret (num_correct + c, num_samples + Z.of_nat (length preds)).

Definition check_accuracy (fl : Flags) (loader : DataLoader) : M Q :=
  model_eval ;;
  batches <- iter_loader loader ;;
  counts <- for_fold batches (0, 0) (accuracy_step fl) ;;
  let '(num_correct, num_samples) := counts in
  ratio <- lift (py_truediv (inject_Z num_correct) (inject_Z num_samples)) ;;
  let acc := (ratio * 100)%Q in
  print (PrintGot num_correct num_samples acc) ;;
  model_train ;;
  ret acc.

(** [save_checkpoint] (lines 108-116) *)
Definition save_checkpoint (filename : string) (epoch : Z) : M unit :=
  fun st =>
    let save_state :=
      mkCheckpoint (model_state_dict (model st)) (epoch + 1)
                   (optimizer_state_dict (optimizer st)) in
    (print PrintBlank ;;
     print PrintSaving ;;
     torch_save save_state filename) st.

(** [load_model] (lines 118-128) *)
Definition override_group (cfg : Config) (param_group : ParamGroup) : ParamGroup :=
  set_weight_decay (weight_decay cfg) (set_lr (learning_rate cfg) param_group).

Definition load_model (cfg : Config) (checkpoint_file : string) : M unit :=
  checkpoint <- torch_load checkpoint_file ;;
  (fun st =>
     match load_state_dict (ck_state_dict checkpoint) (model st) with
     | Ok m => (Ok tt, set_model m st)
     | Raise e => (Raise e, st)
     end) ;;
  (fun st =>
     match optimizer_load_state_dict (ck_optimizer checkpoint) (optimizer st) with
     | Ok o => (Ok tt, set_optimizer o st)
     | Raise e => (Raise e, st)
     end) ;;
  modify (fun st =>
    let o := optimizer st in
    set_optimizer
      (mkOptimizer (map (override_group cfg) (param_groups o)) (o_state o)) st) ;;
  print PrintLoaded.

(** The body of the batch loop of [main] (lines 144-167); the loop carries
    [num_correct], [total_checked] and [losses]. *)
Definition train_step (fl : Flags) (acc : Z * Z * list Q) (b : Batch)
  : M (Z * Z * list Q) :=
  let '(num_correct, total_checked, losses) := acc in
  let '(data, target) := b in
  let data := if train_FC fl then map flatten data else data in
  scores <- call_model data ;;
  loss <- call_criterion scores target ;;
  let losses := losses ++ [loss] in
  zero_grad ;;
  loss_backward data target ;;
  optimizer_step ;;
  let preds := map argmax scores in
  c <- lift (eq_sum preds target) ;;
  ret (num_correct + c, total_checked + Z.of_nat (length preds), losses).

(** The batch loop of one epoch (lines 141-167), from the initialisation of
    its three variables to the last batch. *)
Definition batch_loop (fl : Flags) (train_loader : DataLoader)
  : M (Z * Z * list Q) :=
  batches <- iter_loader train_loader ;;
  for_fold batches (0, 0, []) (train_step fl).

(** One epoch: the body of the loop over [range(self.num_epochs)]
    (lines 140-178). *)
Definition epoch_body (fl : Flags) (cfg : Config)
    (train_loader validation_loader : DataLoader) (epoch : Z) : M unit :=
  sums <- batch_loop fl train_loader ;;
  let '(num_correct, total_checked, losses) := sums in
  (if save_model cfg then save_checkpoint (checkpoint_file cfg) epoch
   else ret tt) ;;
  mean <- lift (py_truediv (py_sum losses) (inject_Z (Z.of_nat (length losses)))) ;;
  print (PrintMeanLoss mean) ;;
  print PrintValidation ;;
  check_accuracy fl validation_loader ;;
  tacc <- lift (py_truediv (inject_Z num_correct) (inject_Z total_checked)) ;;
  print (PrintTrainAcc tacc) ;;
  print PrintNewline.

(** [main] (lines 130-178) once the model and the optimizer exist.
    [resume] stands for line 137, the call of [load_model] that the source
    keeps in a comment to be enabled by hand. *)
Definition main_loop (fl : Flags) (cfg : Config) (resume : bool) (src : Cifar10)
  : M unit :=
  loaders <- load_data cfg src ;;
  let '(train_loader, validation_loader, test_loader) := loaders in
  (if resume then load_model cfg (checkpoint_file cfg) else ret tt) ;;
  for_each (range (num_epochs cfg))
           (epoch_body fl cfg train_loader validation_loader).

Definition main (fl : Flags) (cfg : Config) (resume : bool) (src : Cifar10)
    (sys : Sys) : Result unit * Sys :=
  match setup_model fl with
  | Raise e => (Raise e, sys)
  | Ok model =>
      match SGD model (learning_rate cfg) (weight_decay cfg) with
      | Raise e => (Raise e, sys)
      | Ok optimizer =>
          let r := main_loop fl cfg resume src (enter model optimizer sys) in
          (r.1, leave r.2)
      end
  end.

(** The module as a whole: the assertion, then
    [training = CNN_CIFAR10(); training.main()]. *)
Definition script (fl : Flags) (src : Cifar10) (sys : Sys) : Result unit * Sys :=
  match module_assert fl with
  | Raise e => (Raise e, sys)
  | Ok _ => main fl init_config false src sys
  end.

End CNN_CIFAR10.

(** ** Vocabulary of the properties

    Well-formedness of batches and datasets, the states the methods end in,
    and the conditions under which the framework accepts a saved
    dictionary: what the statements below are written with. *)

Section Vocabulary.
Context `{F : Framework}.

(** A batch as a loader makes it: as many labels as input rows, and at
    least one. *)
Definition batch_wf (b : Batch) : Prop :=
  length b.1 = length b.2 /\ b.1 <> [].

Definition total_samples (bs : list Batch) : Z :=
  fold_right (fun b n => Z.of_nat (length b.1) + n) 0 bs.

Definition add_calls (cs : list Call) (st : St) : St :=
  mkSt (model st) (optimizer st) (fs st) (rng st) (out st) (calls st ++ cs).

(** The state in which the evaluator stops when its division fails: the
    model is still in evaluation mode. *)
Definition eval_stopped (loader : DataLoader) (n : nat) (st : St) : St :=
  mkSt (set_training false (model st)) (optimizer st) (fs st)
       (sampler loader (rng st)).2 (out st)
       (calls st ++ replicate n CallForward).

(** The state in which it returns. *)
Definition eval_returned (loader : DataLoader) (n : nat) (line : Output)
    (st : St) : St :=
  mkSt (set_training true (model st)) (optimizer st) (fs st)
       (sampler loader (rng st)).2 (out st ++ [line])
       (calls st ++ replicate n CallForward).

(** The indices of a subset lie within its dataset, as those produced by
    [random_split] do. *)
Definition data_wf (d : Data) : Prop :=
  match d with
  | Whole _ => True
  | Part s => Forall (fun j => (j < length (d_items (ss_dataset s)))%nat)
                     (ss_indices s)
  end.

(** The framework calls of one training iteration, in order. *)
Definition batch_calls : list Call :=
  [CallForward; CallCriterion; CallZeroGrad; CallBackward; CallStep].

(** What [k] training iterations leave alone, and the calls they add. *)
Record train_frame (k : nat) (st st' : St) : Prop := mk_train_frame {
  tf_fs : fs st' = fs st;
  tf_rng : rng st' = rng st;
  tf_out : out st' = out st;
  tf_training : m_training (model st') = m_training (model st);
  tf_arch : m_arch (model st') = m_arch (model st);
  tf_groups : param_groups (optimizer st') = param_groups (optimizer st);
  tf_calls : calls st' = calls st ++ concat (replicate k batch_calls)
}.

(** The state after [save_checkpoint]. *)
Definition saved (filename : string) (epoch : Z) (st : St) : St :=
  mkSt (model st) (optimizer st)
       (<[filename := mkCheckpoint (model_state_dict (model st)) (epoch + 1)
                        (optimizer_state_dict (optimizer st))]> (fs st))
       (rng st) (out st ++ [PrintBlank; PrintSaving]) (calls st).

Definition after_save (cfg : Config) (epoch : Z) (st : St) : St :=
  if save_model cfg then saved (checkpoint_file cfg) epoch st else st.

(** The rest of an epoch once the batch loop has returned. *)
Definition epoch_summary (fl : Flags) (cfg : Config) (validation_loader : DataLoader)
    (epoch : Z) (sums : Z * Z * list Q) (st1 : St) : Result unit * St :=
  let st2 := after_save cfg epoch st1 in
  match py_truediv (py_sum sums.2) (inject_Z (Z.of_nat (length sums.2))) with
  | Raise e => (Raise e, st2)
  | Ok mean =>
      let st3 := add_out PrintValidation (add_out (PrintMeanLoss mean) st2) in
      match check_accuracy fl validation_loader st3 with
      | (Raise e, st4) => (Raise e, st4)
      | (Ok _, st4) =>
          match py_truediv (inject_Z sums.1.1) (inject_Z sums.1.2) with
          | Raise e => (Raise e, st4)
          | Ok tacc =>
              (Ok tt, add_out PrintNewline (add_out (PrintTrainAcc tacc) st4))
          end
      end
  end.

(** When [load_state_dict] of the model, resp. of the optimizer, accepts a
    saved dictionary. *)
Definition model_accepts (m : Model) (sd : gmap string Tensor) : bool :=
  bool_decide (dom sd = dom (m_state m)) && shapes_agree sd (m_state m).

Definition optimizer_accepts (o : Optimizer) (sd : OptStateDict) : bool :=
  bool_decide (length (param_groups o) = length (sd_param_groups sd))
  && same_sizes (param_groups o) (sd_param_groups sd).

(** The state after a successful [load_model] of the checkpoint [ck]. *)
Definition loaded (cfg : Config) (ck : Checkpoint) (st : St) : St :=
  mkSt (mkModel (m_arch (model st)) (ck_state_dict ck) (m_grad (model st))
                (m_training (model st)))
       (mkOptimizer
          (map (override_group cfg)
               (zip_with update_group (param_groups (optimizer st))
                         (sd_param_groups (ck_optimizer ck))))
          (sd_state (ck_optimizer ck)))
       (fs st) (rng st) (out st ++ [PrintLoaded]) (calls st).

(** The indices [random_split] gives the two subsets, from the permutation
    drawn at generator state [g]. *)
Definition train_indices (g : Rng) : list nat :=
  take (Z.to_nat 40000) (randperm (Z.to_nat 50000) g).1.

Definition validation_indices (g : Rng) : list nat :=
  take (Z.to_nat 10000) (drop (Z.to_nat 40000) (randperm (Z.to_nat 50000) g).1).

(** The number of samples of a batch, resp. of the batches of a pass, whose
    first maximal score, computed in evaluation mode by the model [m], sits
    at the index of the label. *)
Definition batch_correct (fl : Flags) (m : Model) (b : Batch) : Z :=
  count_eq
    (map argmax
         (forward (m_arch m) false (m_state m)
                  (if train_FC fl then map flatten b.1 else b.1)).1)
    b.2.

Definition loader_correct (fl : Flags) (m : Model) (bs : list Batch) : Z :=
  fold_right (fun b n => batch_correct fl m b + n) 0 bs.

(** The framework calls of one epoch: [ktrain] training iterations, then
    [kval] forward passes of the evaluator. *)
Definition epoch_calls (ktrain kval : nat) : list Call :=
  concat (replicate ktrain batch_calls) ++ replicate kval CallForward.

(** A view of the state that the framework calls, the generator and the
    printed lines do not show through: what a method leaves alone is stated
    as a view it keeps. *)
Record View (X : Type) := mkView {
  view : St -> X;
  view_model : forall m st, view (set_model m st) = view st;
  view_rng : forall g st, view (set_rng g st) = view st;
  view_out : forall o st, view (add_out o st) = view st;
  view_call : forall c st, view (add_call c st) = view st;
  view_step : forall s st,
    view (set_optimizer (mkOptimizer (param_groups (optimizer st)) s) st)
    = view st
}.
Arguments view {X} v st.
Arguments mkView {X}.

(** [m] keeps the view [v] in every outcome and raises nothing outside
    [E]. *)
Definition behaves {A X} (v : View X) (E : PyExn -> Prop) (m : M A) : Prop :=
  forall st, view v (m st).2 = view v st
             /\ forall e, (m st).1 = Raise e -> E e.

(** The checkpoint files; the parameter groups of the optimizer. *)
Definition fs_view : View (gmap string Checkpoint) :=
  mkView fs (fun _ _ => eq_refl) (fun _ _ => eq_refl) (fun _ _ => eq_refl)
         (fun _ _ => eq_refl) (fun _ _ => eq_refl).

Definition groups_view : View (list ParamGroup) :=
  mkView (fun st => param_groups (optimizer st))
         (fun _ _ => eq_refl) (fun _ _ => eq_refl) (fun _ _ => eq_refl)
         (fun _ _ => eq_refl) (fun _ _ => eq_refl).

(** The exceptions the data pipeline, the loops and the evaluator can
    raise. *)
Definition training_error (e : PyExn) : Prop :=
  e = ValueError \/ e = IndexError \/ e = RuntimeError \/ e = ZeroDivisionError.

(** The state at the end of an epoch whose batch loop returned [sums] in
    the state [st1] and whose validation loader yields [bsv]. *)
Definition epoch_end (fl : Flags) (cfg : Config) (validation_loader : DataLoader)
    (epoch : Z) (sums : Z * Z * list Q) (bsv : list Batch) (st1 : St) : St :=
  let mean := (py_sum sums.2 / inject_Z (Z.of_nat (length sums.2)))%Q in
  let st3 := add_out PrintValidation
               (add_out (PrintMeanLoss mean) (after_save cfg epoch st1)) in
  let c := loader_correct fl (model st3) bsv in
  let n := total_samples bsv in
  let acc := (inject_Z c / inject_Z n * 100)%Q in
  let st4 := eval_returned validation_loader (length bsv) (PrintGot c n acc) st3 in
  add_out PrintNewline
    (add_out (PrintTrainAcc (inject_Z sums.1.1 / inject_Z sums.1.2)%Q) st4).

(** The embedding takes the framework's operations as total.  The source's
    calls are defined under two conditions, which the statements about
    completion carry as hypotheses.  [input_fits]: the loops flatten the
    batch exactly when the model is the fully connected one; the
    convolutional model raises on flattened rows, which is what happens when
    both flags are set.  [labels_fit]: every label is a class index of the
    ten-way classifier ([out_features=10]); the cross-entropy loss raises on
    any other target. *)
Definition num_classes : Z := 10.

Definition input_fits (fl : Flags) (m : Model) : Prop :=
  match m_arch m with
  | VGG16_modified => train_FC fl = false
  | FullyNet => train_FC fl = true
  end.

Definition labels_fit (items : list (Raw * Z)) : Prop :=
  Forall (fun s => 0 <= s.2 < num_classes) items.

Definition data_items (d : Data) : list (Raw * Z) :=
  match d with
  | Whole ds => d_items ds
  | Part s => d_items (ss_dataset s)
  end.

End Vocabulary.

Arguments view {F X} v st.
Arguments mkView {F X}.

(** ** A small framework to run the script on

    Images, tensors and gradients are integers; a "network" scores an input
    by its parity, a training-mode pass bumps a buffer, a step moves every
    parameter by the gradient, and [randperm] reverses the range. *)

Definition toy_forward (a : Arch) (training : bool) (sd : gmap string Z)
    (x : list Z) : list (list Q) * gmap string Z :=
  (map (fun v => if Z.even v then [1; 0]%Q else [0; 1]%Q) x,
   if training then <["num_batches_tracked" := Z.of_nat (length x)]> sd else sd).

Definition toy : Framework := {|
  Raw := Z;
  Input := Z;
  Tensor := Z;
  Grad := Z;
  Rng := nat;
  to_tensor := fun r => r;
  normalize := fun _ _ x => x;
  flatten := fun x => x;
  tensor_shape := fun _ => [];
  vgg16_pretrained := {[ "features.0.weight" := 7 ]};
  linear_4096_10 := (2, 3);
  fullyNet_init := fun _ _ _ => {[ "fc1.weight" := 5 ]};
  forward := toy_forward;
  criterion := fun scores target => inject_Z (Z.of_nat (length target));
  backward := fun _ _ data _ g => default 0 g + Z.of_nat (length data);
  sgd_step := fun _ st sd g => ((fun t => t - default 0 g) <$> sd, st);
  randperm := fun n g => (rev (seq 0 n), S g)
|}.

Definition toy_model : @Model toy :=
  @mkModel toy VGG16_modified {[ "w" := 11; "b" := 12 ]} None true.

Definition toy_optimizer (lr wd : Q) : @Optimizer toy :=
  @mkOptimizer toy [mkGroup [0; 1]%nat lr (9 # 10) 0 wd false] {[ 0%nat := 4 ]}.

Definition toy_sys : @Sys toy := @mkSys toy ∅ 0%nat [] [].

Definition toy_dataset (n : nat) : @Dataset toy :=
  @mkDataset toy (map (fun i => (Z.of_nat i, Z.of_nat i mod 3)) (seq 0 n))
             (fun r => r).

Definition toy_loader (n : nat) (bsz : Z) : @DataLoader toy :=
  @mkDataLoader toy (Whole (toy_dataset n)) bsz false 0.

Definition toy_st : @St toy :=
  enter toy_model (toy_optimizer (1 # 2) (1 # 4)) toy_sys.

(** The state right after [save_checkpoint "ck" 3]: the file holds the
    learning rate 1/2 and the weight decay 1/4 of [toy_st]'s optimizer. *)
Definition toy_saved_st : @St toy := (save_checkpoint "ck" 3 toy_st).2.

(** The model [setup_model] builds on this framework, an optimizer for it
    with hyperparameters of an earlier configuration, and the system as a
    run left it that saved a checkpoint at epoch 3. *)
Definition toy_vgg : @Model toy :=
  @mkModel toy VGG16_modified
    (<["classifier.6.bias" := 3]>
       (<["classifier.6.weight" := 2]> {[ "features.0.weight" := 7 ]}))
    None true.

Definition toy_vgg_optimizer : @Optimizer toy :=
  @mkOptimizer toy [mkGroup (seq 0 3) (1 # 2) 0 0 (1 # 4) false] ∅.

Definition toy_resume_st : @St toy :=
  (save_checkpoint "ck" 3 (enter toy_vgg toy_vgg_optimizer toy_sys)).2.

Definition toy_resume_sys : @Sys toy := leave toy_resume_st.

Definition toy_resume_cfg : Config :=
  mkConfig (1 # 1000) 0 0 1 64 0 true true true "ck".

Definition toy_cifar : @Cifar10 toy :=
  @mkCifar10 toy (d_items (toy_dataset (Z.to_nat 50000)))
            (d_items (toy_dataset 8)).

(** * Properties *)

Lemma toy_laws : FrameworkLaws toy.
Proof.
  split.
  - intros a t sd x. simpl. unfold toy_forward. simpl. by rewrite length_map.
  - intros a sd x. reflexivity.
  - intros n g. simpl. symmetry. apply Permutation_rev.
Qed.

(** ** The module-level assertion *)

Lemma module_assert_spec (fl : Flags) :
  module_assert fl =
  if train_CNN fl || train_FC fl then Ok tt else Raise AssertionError.
Proof. by destruct fl as [[] []]. Qed.

Lemma module_assert_exactly_one (fl : Flags) :
  xorb (train_CNN fl) (train_FC fl) = true -> module_assert fl = Ok tt.
Proof. by destruct fl as [[] []]. Qed.

Lemma module_assert_neither :
  module_assert (mkFlags false false) = Raise AssertionError.
Proof. reflexivity. Qed.

Section Properties.
Context `{F : Framework}.

(** C1, at the input where the code and the claim part: with both flags set
    the assertion holds, so the script goes on into [main]; [setup_model]
    builds the convolutional model as it does for the convolutional flag
    alone, while both loops flatten every batch as they do for the fully
    connected flag alone. *)
Theorem both_flags_pass_assert (src : Cifar10) (sys : Sys) :
  let fl := mkFlags true true in
  module_assert fl = Ok tt /\
  script fl src sys = main fl init_config false src sys /\
  setup_model fl = setup_model (mkFlags true false) /\
  (exists m, setup_model fl = Ok m /\ m_arch m = VGG16_modified) /\
  (forall acc b, train_step fl acc b = train_step (mkFlags false true) acc b) /\
  (forall acc b, accuracy_step fl acc b
                 = accuracy_step (mkFlags false true) acc b).
Proof.
  repeat split. eexists. split; reflexivity.
Qed.

(** ** Batching *)

Lemma batch_sampler_nonempty (bsz : nat) (s b : list nat) :
  Forall (fun c => c <> []) (batch_sampler bsz s b).
Proof.
  revert b. induction s as [|idx rest IH]; intros b; simpl.
  - destruct b; constructor; [done | constructor].
  - case_decide.
    + constructor; [by destruct b | apply IH].
    + apply IH.
Qed.

Lemma batch_sampler_concat (bsz : nat) (s b : list nat) :
  concat (batch_sampler bsz s b) = b ++ s.
Proof.
  revert b. induction s as [|idx rest IH]; intros b; simpl.
  - destruct b; simpl; by rewrite ?app_nil_r.
  - case_decide; simpl; rewrite IH; by rewrite <- app_assoc.
Qed.

Lemma batch_sampler_length (bsz : nat) (s b : list nat) :
  (length b < bsz)%nat ->
  Z.of_nat (length (batch_sampler bsz s b))
  = ceil_div (Z.of_nat (length b + length s)) (Z.of_nat bsz).
Proof.
  unfold ceil_div. revert b.
  induction s as [|idx rest IH]; intros b Hb; simpl.
  - destruct b as [|i b]; simpl length.
    + symmetry. apply Z.div_small. lia.
    + simpl in Hb. apply Z.div_unique with (r := Z.of_nat (length b)); lia.
  - case_decide as Hlen.
    + simpl length. rewrite Nat2Z.inj_succ, IH by (simpl; lia).
      rewrite length_app in Hlen. simpl in Hlen |- *.
      replace (Z.of_nat (length b + S (length rest)) + Z.of_nat bsz - 1)
        with (1 * Z.of_nat bsz + (Z.of_nat (length rest) + Z.of_nat bsz - 1))
        by lia.
      rewrite Z.div_add_l by lia. lia.
    + rewrite IH; rewrite length_app in *; simpl in *; [|lia].
      do 2 f_equal. lia.
Qed.

Lemma map_result_length {A B} (f : A -> Result B) (l : list A) (bs : list B) :
  map_result f l = Ok bs -> length bs = length l.
Proof.
  revert bs. induction l as [|a l IH]; intros bs; simpl.
  - by intros [= <-].
  - destruct (f a); [|done]. destruct (map_result f l); [|done].
    intros [= <-]. simpl. f_equal. by apply IH.
Qed.

Lemma map_result_Forall {A B} (f : A -> Result B) (P : B -> Prop)
    (l : list A) (bs : list B) :
  map_result f l = Ok bs ->
  Forall (fun a => forall b, f a = Ok b -> P b) l ->
  Forall P bs.
Proof.
  revert bs. induction l as [|a l IH]; intros bs; simpl.
  - intros [= <-] _. constructor.
  - destruct (f a) eqn:Ha; [|done]. destruct (map_result f l); [|done].
    intros [= <-] Hall. inversion Hall; subst. constructor; auto.
Qed.

Lemma map_result_ok {A B} (f : A -> Result B) (l : list A) :
  Forall (fun a => exists b, f a = Ok b) l ->
  exists bs, map_result f l = Ok bs.
Proof.
  induction 1 as [|a l [b Hb] _ [bs Hbs]]; simpl.
  - by eexists.
  - rewrite Hb, Hbs. by eexists.
Qed.

Lemma fetch_batch_wf (d : Data) (idxs : list nat) (b : Batch) :
  idxs <> [] -> fetch_batch d idxs = Ok b -> batch_wf b.
Proof.
  unfold fetch_batch. intros Hne.
  destruct (map_result (data_get d) idxs) as [samples|] eqn:Hs; [|done].
  intros [= <-]. apply map_result_length in Hs.
  unfold batch_wf, collate; simpl. rewrite !length_map. split; [done|].
  destruct samples; [|done]. by destruct idxs.
Qed.

Lemma batches_of_wf (dl : DataLoader) (order : list nat) (bs : list Batch) :
  batches_of dl order = Ok bs -> Forall batch_wf bs.
Proof.
  unfold batches_of. intros Hbs.
  eapply map_result_Forall; [exact Hbs|].
  eapply Forall_impl; [apply batch_sampler_nonempty|].
  intros idxs Hne b. by apply fetch_batch_wf.
Qed.

Lemma batches_of_length (dl : DataLoader) (order : list nat) (bs : list Batch) :
  0 < dl_batch_size dl ->
  batches_of dl order = Ok bs ->
  Z.of_nat (length bs) = ceil_div (Z.of_nat (length order)) (dl_batch_size dl).
Proof.
  unfold batches_of. intros Hpos Hbs.
  apply map_result_length in Hbs. rewrite Hbs.
  rewrite batch_sampler_length by (simpl; lia).
  simpl. by rewrite Z2Nat.id by lia.
Qed.

Lemma total_samples_nonneg (bs : list Batch) : 0 <= total_samples bs.
Proof. induction bs; simpl; lia. Qed.

Lemma total_samples_pos (bs : list Batch) :
  bs <> [] -> Forall batch_wf bs -> 0 < total_samples bs.
Proof.
  destruct bs as [|b bs]; [done|]. intros _ Hall.
  inversion Hall as [|? ? [_ Hne] _]; subst. simpl.
  pose proof (total_samples_nonneg bs).
  destruct (b.1); [done|]. simpl length. lia.
Qed.

(** ** Running the monad *)

Lemma add_calls_nil (st : St) : add_calls [] st = st.
Proof. destruct st. unfold add_calls. simpl. by rewrite app_nil_r. Qed.

Lemma add_calls_app (cs1 cs2 : list Call) (st : St) :
  add_calls cs2 (add_calls cs1 st) = add_calls (cs1 ++ cs2) st.
Proof. unfold add_calls. simpl. by rewrite app_assoc. Qed.

Lemma set_model_same (st : St) : set_model (model st) st = st.
Proof. by destruct st. Qed.

Lemma bind_ok {A B} (m : M A) (k : A -> M B) (st st' : St) (a : A) :
  m st = (Ok a, st') -> bind m k st = k a st'.
Proof. unfold bind. by intros ->. Qed.

Lemma bind_raise {A B} (m : M A) (k : A -> M B) (st st' : St) (e : PyExn) :
  m st = (Raise e, st') -> bind m k st = (Raise e, st').
Proof. unfold bind. by intros ->. Qed.

Lemma count_eq_bounds (p y : list Z) :
  0 <= count_eq p y <= Z.of_nat (length p).
Proof.
  revert y. induction p as [|a p IH]; intros [|b y]; simpl count_eq;
    simpl length; try lia.
  specialize (IH y). case_decide; lia.
Qed.

Lemma eq_sum_aligned (p y : list Z) :
  length p = length y -> eq_sum p y = Ok (count_eq p y).
Proof. intros H. unfold eq_sum. by rewrite decide_True. Qed.

(** ** The evaluator's loop *)

Section Evaluator.
Context (laws : FrameworkLaws F).

Lemma accuracy_step_eval (fl : Flags) (nc ns : Z) (b : Batch) (st : St) :
  m_training (model st) = false ->
  batch_wf b ->
  exists c,
    accuracy_step fl (nc, ns) b st
    = (Ok (nc + c, ns + Z.of_nat (length b.1)), add_calls [CallForward] st)
    /\ 0 <= c <= Z.of_nat (length b.1).
Proof.
  intros Hev [Hlen _]. destruct b as [x y]. simpl in Hlen |- *.
  set (x' := if train_FC fl then map flatten x else x).
  assert (Hx' : length x' = length x).
  { unfold x'. destruct (train_FC fl); by rewrite ?length_map. }
  set (r := forward (m_arch (model st)) false (m_state (model st)) x').
  exists (count_eq (map argmax r.1) y).
  assert (Hr : length (map argmax r.1) = length x).
  { rewrite length_map. unfold r. by rewrite forward_rows. }
  split.
  - unfold bind, call_model, lift, ret. rewrite Hev. fold r.
    rewrite eq_sum_aligned by congruence. rewrite Hr.
    unfold r at 2. rewrite forward_eval_frozen.
    do 2 f_equal. rewrite <- Hev.
    replace (mkModel _ _ _ _) with (model st) by by destruct (model st).
    by rewrite set_model_same.
  - rewrite <- Hr. apply count_eq_bounds.
Qed.

Lemma accuracy_loop_eval (fl : Flags) (bs : list Batch) (nc ns : Z) (st : St) :
  m_training (model st) = false ->
  Forall batch_wf bs ->
  exists c,
    for_fold bs (nc, ns) (accuracy_step fl) st
    = (Ok (nc + c, ns + total_samples bs),
       add_calls (replicate (length bs) CallForward) st)
    /\ 0 <= c <= total_samples bs.
Proof.
  intros Hev Hall. revert nc ns st Hev.
  induction Hall as [|b bs Hb _ IH]; intros nc ns st Hev.
  - exists 0. simpl. unfold ret. rewrite add_calls_nil, !Z.add_0_r. split; [done|lia].
  - destruct (accuracy_step_eval fl nc ns b st Hev Hb) as (c1 & Hstep & Hc1).
    destruct (IH (nc + c1) (ns + Z.of_nat (length b.1))
                 (add_calls [CallForward] st) Hev) as (c2 & Hrest & Hc2).
    exists (c1 + c2). split; [|simpl; lia].
    simpl for_fold. rewrite (bind_ok _ _ _ _ _ Hstep), Hrest.
    rewrite add_calls_app. simpl. do 3 f_equal; lia.
Qed.

End Evaluator.

(** ** Division of counts *)

Lemma Qeq_bool_inject_Z (n : Z) : Qeq_bool (inject_Z n) 0 = bool_decide (n = 0).
Proof.
  unfold Qeq_bool, inject_Z. simpl. rewrite Z.mul_1_r.
  destruct n; reflexivity.
Qed.

Lemma py_truediv_zero (a : Q) : py_truediv a (inject_Z 0) = Raise ZeroDivisionError.
Proof. reflexivity. Qed.

Lemma py_truediv_pos (a : Q) (n : Z) :
  0 < n -> py_truediv a (inject_Z n) = Ok (a / inject_Z n)%Q.
Proof.
  intros Hn. unfold py_truediv. rewrite Qeq_bool_inject_Z.
  by rewrite bool_decide_false by lia.
Qed.

Lemma percent_bounds (c n : Z) :
  0 <= c <= n -> 0 < n ->
  (0 <= inject_Z c / inject_Z n * 100 /\ inject_Z c / inject_Z n * 100 <= 100)%Q.
Proof.
  intros Hc Hn. destruct n as [|p|p]; try lia.
  unfold Qle, Qdiv, Qmult, Qinv, inject_Z. simpl.
  rewrite ?Pos.mul_1_r, ?Z.mul_1_r. lia.
Qed.

(** ** The evaluator as a whole *)

Section EvaluatorRuns.
Context (laws : FrameworkLaws F).

Lemma check_accuracy_raise (fl : Flags) (loader : DataLoader) (st : St) (e : PyExn) :
  (iter_loader loader st).1 = Raise e ->
  check_accuracy fl loader st = (Raise e, eval_stopped loader 0 st).
Proof.
  unfold iter_loader; simpl. intros Hb.
  unfold check_accuracy, bind, model_eval, modify, iter_loader. simpl.
  rewrite Hb. unfold eval_stopped. simpl. by rewrite app_nil_r.
Qed.

Lemma check_accuracy_steps (fl : Flags) (loader : DataLoader) (st : St)
    (bs : list Batch) :
  (iter_loader loader st).1 = Ok bs ->
  exists c,
    0 <= c <= total_samples bs /\
    check_accuracy fl loader st
    = match py_truediv (inject_Z c) (inject_Z (total_samples bs)) with
      | Raise e => (Raise e, eval_stopped loader (length bs) st)
      | Ok ratio =>
          (Ok (ratio * 100)%Q,
           eval_returned loader (length bs)
             (PrintGot c (total_samples bs) (ratio * 100)%Q) st)
      end.
Proof.
  unfold iter_loader; simpl. intros Hb.
  pose proof (batches_of_wf _ _ _ Hb) as Hwf.
  set (st2 := set_rng (sampler loader (rng st)).2
                (set_model (set_training false (model st)) st)).
  destruct (accuracy_loop_eval laws fl bs 0 0 st2 eq_refl Hwf) as (c & Hloop & Hc).
  exists c. split; [done|].
  unfold check_accuracy, bind, model_eval, modify, iter_loader. simpl.
  rewrite Hb. fold st2. rewrite Hloop. simpl.
  unfold lift. destruct (py_truediv _ _); reflexivity.
Qed.

Lemma check_accuracy_ok (fl : Flags) (loader : DataLoader) (st : St)
    (bs : list Batch) :
  (iter_loader loader st).1 = Ok bs -> bs <> [] ->
  exists c acc,
    check_accuracy fl loader st
    = (Ok acc, eval_returned loader (length bs)
                 (PrintGot c (total_samples bs) acc) st)
    /\ (0 <= acc)%Q /\ (acc <= 100)%Q.
Proof.
  intros Hb Hne.
  destruct (check_accuracy_steps fl loader st bs Hb) as (c & Hc & Hrun).
  assert (Hpos : 0 < total_samples bs).
  { apply total_samples_pos; [done|]. eapply batches_of_wf. exact Hb. }
  rewrite py_truediv_pos in Hrun by done.
  exists c, (inject_Z c / inject_Z (total_samples bs) * 100)%Q.
  split; [done|]. by apply percent_bounds.
Qed.

Lemma check_accuracy_empty (fl : Flags) (loader : DataLoader) (st : St) :
  (iter_loader loader st).1 = Ok [] ->
  check_accuracy fl loader st
  = (Raise ZeroDivisionError, eval_stopped loader 0 st).
Proof.
  intros Hb.
  destruct (check_accuracy_steps fl loader st [] Hb) as (c & Hc & Hrun).
  simpl in Hc. assert (c = 0) as -> by lia. exact Hrun.
Qed.

(** C2: on a loader that yields at least one batch the evaluator returns an
    accuracy between 0 and 100; on a loader that yields none it raises
    [ZeroDivisionError] and returns no number. *)
Theorem check_accuracy_range (fl : Flags) (loader : DataLoader) (st : St)
    (bs : list Batch) :
  (iter_loader loader st).1 = Ok bs ->
  (bs <> [] ->
   exists acc st', check_accuracy fl loader st = (Ok acc, st')
                   /\ (0 <= acc)%Q /\ (acc <= 100)%Q) /\
  (bs = [] ->
   exists st', check_accuracy fl loader st = (Raise ZeroDivisionError, st')).
Proof.
  intros Hb. split.
  - intros Hne.
    destruct (check_accuracy_ok fl loader st bs Hb Hne) as (c & acc & Hrun & Hacc).
    by exists acc, (eval_returned loader (length bs)
                      (PrintGot c (total_samples bs) acc) st).
  - intros ->. eexists. by apply check_accuracy_empty.
Qed.

(** C8: whatever the loader and however the evaluator ends, the model's
    state dictionary is the one it started with; when the evaluator returns
    a value, the model is in training mode. *)
Theorem check_accuracy_frame (fl : Flags) (loader : DataLoader) (st : St) :
  let r := check_accuracy fl loader st in
  m_state (model r.2) = m_state (model st) /\
  m_arch (model r.2) = m_arch (model st) /\
  optimizer r.2 = optimizer st /\
  match r.1 with
  | Ok _ => m_training (model r.2) = true
  | Raise _ => True
  end.
Proof.
  simpl. destruct (iter_loader loader st).1 as [bs|e] eqn:Hb.
  - destruct (check_accuracy_steps fl loader st bs Hb) as (c & _ & ->).
    by destruct (py_truediv _ _).
  - by rewrite (check_accuracy_raise fl loader st e Hb).
Qed.

End EvaluatorRuns.

(** ** Iterating a loader *)

Lemma data_get_ok (d : Data) (i : nat) :
  data_wf d -> (i < data_len d)%nat -> exists s, data_get d i = Ok s.
Proof.
  destruct d as [ds|s]; simpl; intros Hwf Hi; unfold dataset_get.
  - destruct (lookup_lt_is_Some_2 _ _ Hi) as [[img label] ->]. by eexists.
  - destruct (lookup_lt_is_Some_2 _ _ Hi) as [j Hj]. rewrite Hj.
    rewrite Forall_lookup in Hwf. specialize (Hwf _ _ Hj).
    destruct (lookup_lt_is_Some_2 _ _ Hwf) as [[img label] ->]. by eexists.
Qed.

Lemma Forall_concat_inv {A} (P : A -> Prop) (ls : list (list A)) :
  Forall P (concat ls) -> Forall (Forall P) ls.
Proof.
  induction ls as [|l ls IH]; simpl; [constructor|].
  rewrite Forall_app. intros [Hl Hls]. constructor; auto.
Qed.

Lemma batches_of_ok (dl : DataLoader) (order : list nat) :
  data_wf (dl_dataset dl) ->
  Forall (fun i => (i < data_len (dl_dataset dl))%nat) order ->
  exists bs, batches_of dl order = Ok bs.
Proof.
  intros Hwf Horder. unfold batches_of. apply map_result_ok.
  assert (Hchunks : Forall (Forall (fun i => (i < data_len (dl_dataset dl))%nat))
            (batch_sampler (Z.to_nat (dl_batch_size dl)) order [])).
  { apply Forall_concat_inv. by rewrite batch_sampler_concat. }
  eapply Forall_impl; [exact Hchunks|]. intros idxs Hidxs. unfold fetch_batch.
  destruct (map_result_ok (data_get (dl_dataset dl)) idxs) as [samples ->].
  - eapply Forall_impl; [exact Hidxs|]. intros i Hi. by apply data_get_ok.
  - by eexists.
Qed.

Lemma batches_of_nil (dl : DataLoader) (order : list nat) (bs : list Batch) :
  batches_of dl order = Ok bs -> (bs = [] <-> order = []).
Proof.
  unfold batches_of. intros Hbs. apply map_result_length in Hbs.
  pose proof (batch_sampler_concat (Z.to_nat (dl_batch_size dl)) order []) as Hc.
  pose proof (batch_sampler_nonempty (Z.to_nat (dl_batch_size dl)) order []) as Hne.
  destruct (batch_sampler _ order []) as [|c cs]; simpl in *.
  - subst order. by destruct bs.
  - split; [by intros ->|]. intros ->. inversion Hne; subst.
    by destruct c.
Qed.

Section Iteration.
Context (laws : FrameworkLaws F).

Lemma sampler_perm (dl : DataLoader) (g : Rng) :
  Permutation (sampler dl g).1 (seq 0 (data_len (dl_dataset dl))).
Proof.
  unfold sampler. destruct (dl_shuffle dl); simpl; [apply randperm_perm|done].
Qed.

Lemma sampler_length (dl : DataLoader) (g : Rng) :
  length (sampler dl g).1 = data_len (dl_dataset dl).
Proof. by rewrite (Permutation_length (sampler_perm dl g)), length_seq. Qed.

(** A pass over a well-formed loader yields its batches; there are
    [ceil(N / B)] of them. *)
Lemma iter_loader_ok (dl : DataLoader) (st : St) :
  data_wf (dl_dataset dl) ->
  exists bs,
    (iter_loader dl st).1 = Ok bs /\
    (bs = [] <-> data_len (dl_dataset dl) = 0%nat) /\
    (0 < dl_batch_size dl ->
     Z.of_nat (length bs)
     = ceil_div (Z.of_nat (data_len (dl_dataset dl))) (dl_batch_size dl)).
Proof.
  intros Hwf. unfold iter_loader; simpl.
  destruct (batches_of_ok dl (sampler dl (rng st)).1 Hwf) as [bs Hbs].
  { rewrite (sampler_perm dl (rng st)). apply Forall_forall.
    intros i Hi%elem_of_seq. lia. }
  exists bs. split; [done|]. split.
  - rewrite (batches_of_nil _ _ _ Hbs), <- (sampler_length dl (rng st)).
    by destruct (sampler dl (rng st)).1.
  - intros Hpos. rewrite (batches_of_length _ _ _ Hpos Hbs).
    by rewrite sampler_length.
Qed.

End Iteration.

(** ** The batch loop *)

Lemma train_frame_refl (st : St) : train_frame 0 st st.
Proof. split; try done. simpl. by rewrite app_nil_r. Qed.

Lemma train_frame_step (k : nat) (st st1 st2 : St) :
  train_frame 1 st st1 -> train_frame k st1 st2 -> train_frame (S k) st st2.
Proof.
  intros [] []. split; try congruence.
  rewrite tf_calls1, tf_calls0. simpl. by rewrite <- app_assoc.
Qed.

Section Training.
Context (laws : FrameworkLaws F).

Lemma train_step_ok (fl : Flags) (nc tc : Z) (ls : list Q) (b : Batch) (st : St) :
  batch_wf b ->
  exists c loss st',
    train_step fl (nc, tc, ls) b st
    = (Ok (nc + c, tc + Z.of_nat (length b.1), ls ++ [loss]), st')
    /\ 0 <= c <= Z.of_nat (length b.1)
    /\ train_frame 1 st st'.
Proof.
  intros [Hlen _]. destruct b as [x y]. simpl in Hlen |- *.
  set (x' := if train_FC fl then map flatten x else x).
  assert (Hx' : length x' = length x).
  { unfold x'. destruct (train_FC fl); by rewrite ?length_map. }
  set (r := forward (m_arch (model st)) (m_training (model st))
                    (m_state (model st)) x').
  assert (Hr : length (map argmax r.1) = length x).
  { rewrite length_map. unfold r. by rewrite forward_rows. }
  exists (count_eq (map argmax r.1) y), (criterion r.1 y).
  unfold bind, call_model, call_criterion, zero_grad, loss_backward,
    optimizer_step, modify, lift, ret. simpl. fold r.
  rewrite eq_sum_aligned by congruence. rewrite Hr.
  eexists. split; [reflexivity|]. split.
  - rewrite <- Hr. apply count_eq_bounds.
  - split; simpl; try done. by rewrite <- !app_assoc.
Qed.

Lemma train_loop_ok (fl : Flags) (bs : list Batch) (nc tc : Z) (ls : list Q)
    (st : St) :
  Forall batch_wf bs ->
  exists c ls' st',
    for_fold bs (nc, tc, ls) (train_step fl) st
    = (Ok (nc + c, tc + total_samples bs, ls ++ ls'), st')
    /\ 0 <= c <= total_samples bs
    /\ length ls' = length bs
    /\ train_frame (length bs) st st'.
Proof.
  intros Hall. revert nc tc ls st.
  induction Hall as [|b bs Hb _ IH]; intros nc tc ls st.
  - exists 0, [], st. simpl. unfold ret. rewrite !Z.add_0_r, app_nil_r.
    split; [done|]. split; [lia|]. split; [done|]. apply train_frame_refl.
  - destruct (train_step_ok fl nc tc ls b st Hb) as (c1 & loss & st1 & Hstep & Hc1 & Hf1).
    destruct (IH (nc + c1) (tc + Z.of_nat (length b.1)) (ls ++ [loss]) st1)
      as (c2 & ls2 & st2 & Hrest & Hc2 & Hlen & Hf2).
    exists (c1 + c2), (loss :: ls2), st2.
    simpl for_fold. rewrite (bind_ok _ _ _ _ _ Hstep), Hrest.
    split; [|split; [simpl; lia|split; [simpl; congruence|]]].
    + rewrite <- app_assoc. simpl.
      replace (nc + c1 + c2) with (nc + (c1 + c2)) by lia.
      replace (tc + Z.of_nat (length b.1) + total_samples bs)
        with (tc + (Z.of_nat (length b.1) + total_samples bs)) by lia.
      reflexivity.
    + by eapply train_frame_step.
Qed.

Lemma fetch_batch_length (d : Data) (idxs : list nat) (b : Batch) :
  fetch_batch d idxs = Ok b -> length b.1 = length idxs.
Proof.
  unfold fetch_batch.
  destruct (map_result (data_get d) idxs) as [samples|] eqn:Hs; [|done].
  intros [= <-]. simpl. rewrite length_map. by eapply map_result_length.
Qed.

Lemma batches_total (d : Data) (chunks : list (list nat)) (bs : list Batch) :
  map_result (fetch_batch d) chunks = Ok bs ->
  total_samples bs = Z.of_nat (length (concat chunks)).
Proof.
  revert bs. induction chunks as [|c chunks IH]; intros bs; simpl.
  - by intros [= <-].
  - destruct (fetch_batch d c) as [b|] eqn:Hb; [|done].
    destruct (map_result (fetch_batch d) chunks) as [bs'|]; [|done].
    intros [= <-]. simpl. rewrite (IH bs' eq_refl), length_app.
    rewrite (fetch_batch_length _ _ _ Hb). lia.
Qed.

Lemma batches_of_total (dl : DataLoader) (order : list nat) (bs : list Batch) :
  batches_of dl order = Ok bs -> total_samples bs = Z.of_nat (length order).
Proof.
  unfold batches_of. intros Hbs. rewrite (batches_total _ _ _ Hbs).
  by rewrite batch_sampler_concat.
Qed.

(** The batch loop over a well-formed loader: [ceil(N / B)] iterations, none
    of which raises. *)
Lemma batch_loop_ok (fl : Flags) (loader : DataLoader) (st : St) :
  data_wf (dl_dataset loader) ->
  0 < dl_batch_size loader ->
  let n := Z.of_nat (data_len (dl_dataset loader)) in
  let k := Z.to_nat (ceil_div n (dl_batch_size loader)) in
  exists num_correct losses st',
    batch_loop fl loader st = (Ok (num_correct, n, losses), st')
    /\ 0 <= num_correct <= n
    /\ length losses = k
    /\ train_frame k (set_rng (sampler loader (rng st)).2 st) st'.
Proof.
  intros Hwf Hpos n k.
  destruct (iter_loader_ok laws loader st Hwf) as (bs & Hbs & _ & Hlen).
  specialize (Hlen Hpos). fold n in Hlen.
  assert (Hk : length bs = k) by (unfold k; lia).
  unfold iter_loader in Hbs; simpl in Hbs.
  pose proof (batches_of_total _ _ _ Hbs) as Htot.
  rewrite (sampler_length laws) in Htot. fold n in Htot.
  destruct (train_loop_ok fl bs 0 0 [] (set_rng (sampler loader (rng st)).2 st)
              (batches_of_wf _ _ _ Hbs))
    as (c & ls & st' & Hloop & Hc & Hls & Hframe).
  rewrite Htot in Hloop, Hc. rewrite Hk in Hls, Hframe.
  exists c, ls, st'. unfold batch_loop, bind, iter_loader. simpl.
  by rewrite Hbs, Hloop.
Qed.

End Training.

(** ** One epoch *)

Lemma save_checkpoint_run (filename : string) (epoch : Z) (st : St) :
  save_checkpoint filename epoch st = (Ok tt, saved filename epoch st).
Proof.
  unfold save_checkpoint, bind, print, torch_save, modify, saved, add_out,
    set_fs. simpl. by rewrite <- app_assoc.
Qed.

Lemma epoch_body_run (fl : Flags) (cfg : Config)
    (train_loader validation_loader : DataLoader) (epoch : Z) (st : St) :
  epoch_body fl cfg train_loader validation_loader epoch st
  = match batch_loop fl train_loader st with
    | (Raise e, st1) => (Raise e, st1)
    | (Ok sums, st1) => epoch_summary fl cfg validation_loader epoch sums st1
    end.
Proof.
  unfold epoch_body. unfold bind at 1.
  destruct (batch_loop fl train_loader st) as [[[[nc tc] losses]|e] st1]; [|done].
  unfold epoch_summary, after_save. simpl.
  unfold bind at 1.
  replace ((if save_model cfg then save_checkpoint (checkpoint_file cfg) epoch
            else ret tt) st1)
    with (Ok tt, if save_model cfg then saved (checkpoint_file cfg) epoch st1 else st1)
    by (destruct (save_model cfg); [by rewrite save_checkpoint_run|done]).
  unfold bind at 1, lift at 1.
  destruct (py_truediv (py_sum losses) _) as [mean|e]; [|done].
  unfold bind at 1, print at 1, modify at 1.
  unfold bind at 1, print at 1, modify at 1.
  unfold bind at 1.
  destruct (check_accuracy fl validation_loader _) as [[acc|e] st4]; [|done].
  unfold bind at 1, lift at 1.
  destruct (py_truediv (inject_Z nc) _) as [tacc|e]; [|done].
  reflexivity.
Qed.

(** C10: when the training loader yields no batch, the epoch raises
    [ZeroDivisionError] at the mean loss: nothing is printed after the
    optional checkpoint lines, and the evaluator is not reached. *)
Theorem epoch_without_batches (fl : Flags) (cfg : Config)
    (train_loader validation_loader : DataLoader) (epoch : Z) (st : St) :
  (iter_loader train_loader st).1 = Ok [] ->
  exists st',
    epoch_body fl cfg train_loader validation_loader epoch st
    = (Raise ZeroDivisionError, st')
    /\ out st' = out st ++ (if save_model cfg then [PrintBlank; PrintSaving] else [])
    /\ calls st' = calls st.
Proof.
  intros Hb. rewrite epoch_body_run.
  unfold batch_loop, bind. unfold iter_loader in *. simpl in Hb. rewrite Hb.
  simpl. unfold epoch_summary, after_save. simpl.
  eexists. split; [reflexivity|].
  destruct (save_model cfg); simpl; by rewrite ?app_nil_r.
Qed.

Lemma ceil_div_pos (n b : Z) : 0 < n -> 0 < b -> 0 < ceil_div n b.
Proof. intros Hn Hb. unfold ceil_div. apply Z.div_str_pos. lia. Qed.

Section Epoch.
Context (laws : FrameworkLaws F).

Lemma epoch_body_returns (fl : Flags) (cfg : Config)
    (train_loader validation_loader : DataLoader) (epoch : Z) (st : St) :
  data_wf (dl_dataset train_loader) ->
  0 < dl_batch_size train_loader ->
  data_len (dl_dataset train_loader) <> 0%nat ->
  data_wf (dl_dataset validation_loader) ->
  data_len (dl_dataset validation_loader) <> 0%nat ->
  let n := Z.of_nat (data_len (dl_dataset train_loader)) in
  let k := Z.to_nat (ceil_div n (dl_batch_size train_loader)) in
  exists kv st',
    epoch_body fl cfg train_loader validation_loader epoch st = (Ok tt, st')
    /\ calls st' = calls st ++ concat (replicate k batch_calls)
                   ++ replicate kv CallForward.
Proof.
  intros Hwf Hpos Hn Hwfv Hnv n k.
  destruct (batch_loop_ok laws fl train_loader st Hwf Hpos)
    as (nc & losses & st1 & Hloop & Hnc & Hls & Hframe).
  fold n in Hloop, Hnc, Hls, Hframe. fold k in Hls, Hframe.
  assert (Hcalls : calls st1 = calls st ++ concat (replicate k batch_calls))
    by by destruct Hframe.
  assert (Hn' : 0 < n) by (unfold n; lia).
  assert (Hk : 0 < Z.of_nat k).
  { unfold k. pose proof (ceil_div_pos n _ Hn' Hpos). lia. }
  rewrite epoch_body_run, Hloop. unfold epoch_summary. simpl.
  rewrite Hls, py_truediv_pos by done.
  set (st3 := add_out PrintValidation (add_out _ _)).
  destruct (iter_loader_ok laws validation_loader st3 Hwfv)
    as (bsv & Hbsv & Hnil & _).
  destruct (check_accuracy_ok laws fl validation_loader st3 bsv Hbsv)
    as (c & acc & Hrun & _); [tauto|].
  rewrite Hrun, py_truediv_pos by done.
  eexists (length bsv), _. split; [reflexivity|].
  simpl. unfold after_save.
  destruct (save_model cfg); simpl; by rewrite Hcalls, <- app_assoc.
Qed.

(** C7, amended: for a training loader over [N] samples with labels among
    the ten classes and batch size [B >= 1], and flags that fit the model
    (batches are flattened exactly for the fully connected one), the batch
    loop makes exactly [ceil(N / B)] iterations, each a forward pass, the
    loss, zero-grad, backward and one optimizer step, and none raises; when
    [N >= 1] and the validation loader is not empty, the epoch as a whole
    returns, having added the evaluator's forward passes. *)
Theorem epoch_batch_iterations (fl : Flags) (cfg : Config)
    (train_loader validation_loader : DataLoader) (epoch : Z) (st : St) :
  input_fits fl (model st) ->
  labels_fit (data_items (dl_dataset train_loader)) ->
  data_wf (dl_dataset train_loader) ->
  0 < dl_batch_size train_loader ->
  let n := Z.of_nat (data_len (dl_dataset train_loader)) in
  let k := Z.to_nat (ceil_div n (dl_batch_size train_loader)) in
  (exists sums st1,
     batch_loop fl train_loader st = (Ok sums, st1)
     /\ length sums.2 = k
     /\ calls st1 = calls st ++ concat (replicate k batch_calls)) /\
  (0 < n ->
   data_wf (dl_dataset validation_loader) ->
   data_len (dl_dataset validation_loader) <> 0%nat ->
   exists kv st',
     epoch_body fl cfg train_loader validation_loader epoch st = (Ok tt, st')
     /\ calls st' = calls st ++ concat (replicate k batch_calls)
                    ++ replicate kv CallForward).
Proof.
  intros _ _ Hwf Hpos n k. split.
  - destruct (batch_loop_ok laws fl train_loader st Hwf Hpos)
      as (nc & losses & st1 & Hloop & Hnc & Hls & Hframe).
    exists (nc, n, losses), st1. split; [done|]. split; [done|].
    by destruct Hframe.
  - intros Hn Hwfv Hnv. apply epoch_body_returns; try done. unfold n in Hn. lia.
Qed.

End Epoch.

(** ** Checkpoints *)

Lemma load_model_run (cfg : Config) (path : string) (ck : Checkpoint) (st : St) :
  fs st !! path = Some ck ->
  model_accepts (model st) (ck_state_dict ck) = true ->
  optimizer_accepts (optimizer st) (ck_optimizer ck) = true ->
  load_model cfg path st = (Ok tt, loaded cfg ck st).
Proof.
  intros Hfile Hm Ho. unfold model_accepts in Hm.
  apply andb_true_iff in Ho as [Ho1 Ho2].
  unfold load_model, bind, torch_load. rewrite Hfile.
  unfold load_state_dict. rewrite Hm.
  unfold optimizer_load_state_dict. simpl. rewrite Ho1, Ho2. reflexivity.
Qed.

Lemma override_group_lr (cfg : Config) (g : ParamGroup) :
  pg_lr (override_group cfg g) = learning_rate cfg
  /\ pg_weight_decay (override_group cfg g) = weight_decay cfg.
Proof. done. Qed.

Lemma override_group_rest (cfg : Config) (g : ParamGroup) :
  pg_params (override_group cfg g) = pg_params g
  /\ pg_momentum (override_group cfg g) = pg_momentum g
  /\ pg_dampening (override_group cfg g) = pg_dampening g
  /\ pg_nesterov (override_group cfg g) = pg_nesterov g.
Proof. done. Qed.

Lemma override_group_id (cfg : Config) (g : ParamGroup) :
  pg_lr g = learning_rate cfg -> pg_weight_decay g = weight_decay cfg ->
  override_group cfg g = g.
Proof. destruct g; simpl. by intros -> ->. Qed.

(** C5: a successful [load_model] leaves every parameter group, one per
    saved group, with the learning rate and the weight decay of the current
    configuration, whatever the checkpoint stored; the other entries of each
    group are the stored ones. *)
Theorem load_model_overrides (cfg : Config) (path : string) (ck : Checkpoint)
    (st : St) :
  fs st !! path = Some ck ->
  model_accepts (model st) (ck_state_dict ck) = true ->
  optimizer_accepts (optimizer st) (ck_optimizer ck) = true ->
  exists st',
    load_model cfg path st = (Ok tt, st')
    /\ Forall2 (fun g saved =>
                  pg_lr g = learning_rate cfg
                  /\ pg_weight_decay g = weight_decay cfg
                  /\ pg_momentum g = pg_momentum saved
                  /\ pg_dampening g = pg_dampening saved
                  /\ pg_nesterov g = pg_nesterov saved)
               (param_groups (optimizer st'))
               (sd_param_groups (ck_optimizer ck)).
Proof.
  intros Hfile Hm Ho. exists (loaded cfg ck st).
  split; [by apply load_model_run|].
  apply andb_true_iff in Ho as [Hlen%bool_decide_eq_true _].
  simpl. revert Hlen.
  generalize (param_groups (optimizer st)) (sd_param_groups (ck_optimizer ck)).
  induction l as [|g gs IH]; intros [|s ss]; simpl; try done.
  intros [= Hlen]. constructor; [done|]. by apply IH.
Qed.

Lemma override_groups_id (cfg : Config) (gs : list ParamGroup) :
  Forall (fun g => pg_lr g = learning_rate cfg
                   /\ pg_weight_decay g = weight_decay cfg) gs ->
  map (override_group cfg) gs = gs.
Proof.
  induction 1 as [|g gs [Hlr Hwd] _ IH]; simpl; [done|].
  by rewrite IH, override_group_id.
Qed.

Lemma shapes_agree_refl (sd : gmap string Tensor) : shapes_agree sd sd = true.
Proof.
  unfold shapes_agree. apply bool_decide_eq_true.
  intros k t Hk. by rewrite Hk.
Qed.

Lemma same_sizes_refl (gs : list ParamGroup) : same_sizes gs gs = true.
Proof.
  unfold same_sizes. induction gs as [|g gs IH]; simpl; [done|].
  by rewrite bool_decide_true.
Qed.

Lemma update_group_same (gs : list ParamGroup) : zip_with update_group gs gs = gs.
Proof.
  induction gs as [|g gs IH]; simpl; [done|]. rewrite IH. by destruct g.
Qed.

(** C3, amended: saving at epoch [e] and loading the file back restores the
    model as it was and the optimizer's state; the parameter groups come
    back with learning rate and weight decay set to the configuration's
    (so the optimizer as a whole comes back unchanged when its groups had
    them already); the file holds [e + 1]. *)
Theorem save_load_roundtrip (cfg : Config) (path : string) (e : Z) (st : St) :
  exists st',
    (save_checkpoint path e ;; load_model cfg path) st = (Ok tt, st')
    /\ model st' = model st
    /\ o_state (optimizer st') = o_state (optimizer st)
    /\ param_groups (optimizer st')
       = map (override_group cfg) (param_groups (optimizer st))
    /\ (Forall (fun g => pg_lr g = learning_rate cfg
                         /\ pg_weight_decay g = weight_decay cfg)
               (param_groups (optimizer st)) ->
        optimizer st' = optimizer st)
    /\ ck_epoch <$> fs st' !! path = Some (e + 1).
Proof.
  exists (loaded cfg (mkCheckpoint (model_state_dict (model st)) (e + 1)
                        (optimizer_state_dict (optimizer st)))
                 (saved path e st)).
  assert (Hgroups : map (override_group cfg)
            (zip_with update_group (param_groups (optimizer st))
                      (param_groups (optimizer st)))
          = map (override_group cfg) (param_groups (optimizer st)))
    by by rewrite update_group_same.
  split; [|split; [|split; [|split; [|split]]]].
  - unfold bind. rewrite save_checkpoint_run. apply load_model_run.
    + simpl. apply lookup_insert_eq.
    + unfold model_accepts. simpl.
      by rewrite bool_decide_true, shapes_agree_refl.
    + unfold optimizer_accepts. simpl.
      by rewrite bool_decide_true, same_sizes_refl.
  - simpl. by destruct (model st).
  - done.
  - exact Hgroups.
  - intros Hall. simpl. rewrite Hgroups.
    rewrite (override_groups_id _ _ Hall). by destruct (optimizer st).
  - simpl. by rewrite lookup_insert_eq.
Qed.

(** ** The epoch counter *)

Lemma for_each_last {A} (P : A -> St -> Prop) (body : A -> M unit) (l : list A)
    (a : A) (st st' : St) :
  (forall x s s', body x s = (Ok tt, s') -> P x s') ->
  last l = Some a ->
  for_each l body st = (Ok tt, st') ->
  P a st'.
Proof.
  intros Hbody. revert st. induction l as [|x l IH]; intros st; [done|].
  simpl for_each. unfold bind.
  destruct (body x st) as [[[]|e] st1] eqn:Hx; [|done].
  destruct l as [|y l].
  - simpl. unfold ret. intros [= <-] [= <-]. by eapply Hbody.
  - intros Hlast. apply IH. exact Hlast.
Qed.

Lemma range_last (n : Z) : 0 < n -> last (range n) = Some (n - 1).
Proof.
  intros Hn. unfold range.
  destruct (Z.to_nat n) as [|m] eqn:Hm; [lia|].
  rewrite seq_S, map_app. simpl. rewrite last_snoc. f_equal. lia.
Qed.

Lemma range_first (n : Z) : 0 < n -> head (range n) = Some 0.
Proof.
  intros Hn. unfold range. destruct (Z.to_nat n) as [|m] eqn:Hm; [lia|done].
Qed.

Section Resume.
Context (laws : FrameworkLaws F).

Lemma check_accuracy_fs (fl : Flags) (loader : DataLoader) (st : St) :
  fs (check_accuracy fl loader st).2 = fs st.
Proof.
  destruct (iter_loader loader st).1 as [bs|e] eqn:Hb.
  - destruct (check_accuracy_steps laws fl loader st bs Hb) as (c & _ & ->).
    by destruct (py_truediv _ _).
  - by rewrite (check_accuracy_raise fl loader st e Hb).
Qed.

Lemma epoch_body_saved (fl : Flags) (cfg : Config)
    (train_loader validation_loader : DataLoader) (epoch : Z) (st st' : St) :
  save_model cfg = true ->
  epoch_body fl cfg train_loader validation_loader epoch st = (Ok tt, st') ->
  ck_epoch <$> fs st' !! checkpoint_file cfg = Some (epoch + 1).
Proof.
  intros Hsave. rewrite epoch_body_run.
  destruct (batch_loop fl train_loader st) as [[sums|e] st1]; [|done].
  unfold epoch_summary. destruct (py_truediv _ _) as [mean|e]; [|done].
  set (st3 := add_out PrintValidation _).
  pose proof (check_accuracy_fs fl validation_loader st3) as Hfs.
  destruct (check_accuracy fl validation_loader st3) as [[acc|e] st4]; [|done].
  destruct (py_truediv _ _) as [tacc|e]; [|done].
  intros [= <-]. simpl in Hfs |- *. rewrite Hfs.
  unfold after_save. rewrite Hsave. simpl. by rewrite lookup_insert_eq.
Qed.

Lemma main_saved_epoch (fl : Flags) (cfg : Config) (resume : bool)
    (src : Cifar10) (sys sys' : Sys) :
  save_model cfg = true ->
  0 < num_epochs cfg ->
  main fl cfg resume src sys = (Ok tt, sys') ->
  ck_epoch <$> sys_fs sys' !! checkpoint_file cfg = Some (num_epochs cfg).
Proof.
  intros Hsave Hn. unfold main.
  destruct (setup_model fl) as [m|e]; [|done].
  destruct (SGD m _ _) as [o|e]; [|done].
  destruct (main_loop fl cfg resume src (enter m o sys)) as [r st3] eqn:Hrun.
  simpl. intros [= -> <-]. simpl.
  unfold main_loop in Hrun. unfold bind at 1 in Hrun.
  destruct (load_data cfg src _) as [[[[tr va] te]|e] st1]; [|done].
  unfold bind at 1 in Hrun.
  destruct ((if resume then load_model cfg (checkpoint_file cfg) else ret tt) st1)
    as [[[]|e] st2]; [|done].
  rename Hrun into Hloop.
  rewrite (for_each_last
             (fun e s => ck_epoch <$> fs s !! checkpoint_file cfg = Some (e + 1))
             _ _ (num_epochs cfg - 1) st2 st3
             (fun x s s' => epoch_body_saved fl cfg tr va x s s' Hsave)
             (range_last _ Hn) Hloop).
  f_equal. lia.
Qed.

(** C9: [load_model] does not read the stored epoch, its outcome is the
    same whatever epoch the file holds, and it writes no file; and a run of
    [main] that resumes from a checkpoint and completes its [n] epochs with
    saving enabled leaves the epoch [n] in the file, that of a loop counting
    0, ..., n - 1, whatever epoch the file held before. *)
Theorem load_model_ignores_epoch (fl : Flags) (cfg : Config) (src : Cifar10)
    (sys sys' : Sys) (path : string) (ck : Checkpoint) (k : Z) (st : St) :
  fs st !! path = Some ck ->
  save_model cfg = true ->
  0 < num_epochs cfg ->
  main fl cfg true src sys = (Ok tt, sys') ->
  let st_k := set_fs (<[path := mkCheckpoint (ck_state_dict ck) k
                                  (ck_optimizer ck)]> (fs st)) st in
  let r := load_model cfg path st in
  let r_k := load_model cfg path st_k in
  (r_k.1 = r.1 /\ model r_k.2 = model r.2 /\ optimizer r_k.2 = optimizer r.2
   /\ out r_k.2 = out r.2 /\ fs r.2 = fs st /\ fs r_k.2 = fs st_k) /\
  head (range (num_epochs cfg)) = Some 0 /\
  ck_epoch <$> sys_fs sys' !! checkpoint_file cfg = Some (num_epochs cfg).
Proof.
  intros Hfile Hsave Hn Hmain. simpl. split; [|split].
  - unfold load_model, bind, torch_load. simpl.
    rewrite lookup_insert_eq, Hfile. simpl.
    destruct (load_state_dict _ _) as [m|e]; [|done]. simpl.
    destruct (optimizer_load_state_dict _ _) as [o|e]; done.
  - by apply range_first.
  - by eapply main_saved_epoch.
Qed.

End Resume.

(** ** The data pipeline *)

Lemma split_lengths_two (a b : Z) (indices : list nat) :
  split_lengths [a; b] indices
  = [take (Z.to_nat a) indices;
     take (Z.to_nat b) (drop (Z.to_nat a) indices)].
Proof. reflexivity. Qed.

Lemma load_data_run (cfg : Config) (src : Cifar10) (st : St) :
  Z.of_nat (length (cifar_train src)) = 50000 ->
  0 < batch_size cfg ->
  0 <= num_workers cfg ->
  load_data cfg src st
  = (Ok (mkDataLoader
           (Part (mkSubset (CIFAR10 src true transformations.1)
                           (train_indices (rng st))))
           (batch_size cfg) false (num_workers cfg),
         mkDataLoader
           (Part (mkSubset (CIFAR10 src true transformations.1)
                           (validation_indices (rng st))))
           (batch_size cfg) false (num_workers cfg),
         mkDataLoader (Whole (CIFAR10 src false transformations.1))
                      (batch_size cfg) false (num_workers cfg)),
     set_rng (randperm (Z.to_nat 50000) (rng st)).2 st).
Proof.
  intros Hlen Hb Hw. unfold load_data, train_indices, validation_indices.
  unfold bind at 1. unfold random_split.
  change (sum_lengths [40000; 10000]) with 50000.
  rewrite decide_True by (simpl; lia).
  rewrite split_lengths_two. cbn [map].
  unfold bind, lift, ret, DataLoader_init.
  destruct (decide (num_workers cfg < 0)); [lia|].
  destruct (decide (batch_size cfg <= 0)); [lia|].
  reflexivity.
Qed.

Section Pipeline.
Context (laws : FrameworkLaws F).

(** C6: from a training source of 50,000 images [load_data] builds a
    training loader over 40,000 indices and a validation loader over
    10,000, both into that source; together the indices are exactly those
    of the source, each once, so none is in both. *)
Theorem load_data_split (cfg : Config) (src : Cifar10) (st : St) :
  Z.of_nat (length (cifar_train src)) = 50000 ->
  0 < batch_size cfg ->
  0 <= num_workers cfg ->
  exists train_data validation_data train_loader validation_loader test_loader st',
    load_data cfg src st
    = (Ok (train_loader, validation_loader, test_loader), st')
    /\ dl_dataset train_loader = Part train_data
    /\ dl_dataset validation_loader = Part validation_data
    /\ d_items (ss_dataset train_data) = cifar_train src
    /\ d_items (ss_dataset validation_data) = cifar_train src
    /\ Z.of_nat (length (ss_indices train_data)) = 40000
    /\ Z.of_nat (length (ss_indices validation_data)) = 10000
    /\ Permutation (ss_indices train_data ++ ss_indices validation_data)
                   (seq 0 (length (cifar_train src)))
    /\ (forall i, i ∈ ss_indices train_data -> i ∉ ss_indices validation_data).
Proof.
  intros Hlen Hb Hw.
  set (perm := (randperm (Z.to_nat 50000) (rng st)).1).
  assert (Hperm : Permutation perm (seq 0 (Z.to_nat 50000)))
    by apply randperm_perm.
  assert (Hplen : length perm = Z.to_nat 50000)
    by by rewrite (Permutation_length Hperm), length_seq.
  assert (Happ : train_indices (rng st) ++ validation_indices (rng st) = perm).
  { unfold train_indices, validation_indices. fold perm.
    rewrite (take_ge (drop _ _)) by (rewrite length_drop; lia).
    apply take_drop. }
  do 6 eexists. split; [by apply load_data_run|].
  split; [done|]. split; [done|]. split; [done|]. split; [done|].
  cbn [ss_indices].
  unfold train_indices at 1, validation_indices at 1. fold perm.
  rewrite !length_take, length_drop.
  split; [lia|]. split; [lia|]. rewrite Happ. split.
  - rewrite Hperm. replace (length (cifar_train src)) with (Z.to_nat 50000) by lia.
    done.
  - assert (Hnd : NoDup (train_indices (rng st) ++ validation_indices (rng st))).
    { rewrite Happ, Hperm. apply NoDup_seq. }
    apply NoDup_app in Hnd as (_ & Hdisj & _). exact Hdisj.
Qed.

End Pipeline.

(** C4, as the code has it: [load_data] does not look at the [shuffle]
    field.  Its result is the same whatever the field holds, the training
    loader it builds does not shuffle, and every pass over that loader
    visits the subset in the one order [0, 1, 2, ...], whatever the state of
    the random generator. *)
Theorem load_data_ignores_shuffle (cfg : Config) (b : bool) (src : Cifar10)
    (st : St) :
  let cfg_b := mkConfig (learning_rate cfg) (drop_rate cfg) (weight_decay cfg)
                 (num_epochs cfg) (batch_size cfg) (num_workers cfg)
                 (save_model cfg) b (pin_memory cfg) (checkpoint_file cfg) in
  load_data cfg_b src st = load_data cfg src st /\
  match (load_data cfg src st).1 with
  | Ok (train_loader, _, _) =>
      dl_shuffle train_loader = false /\
      forall g, sampler train_loader g
                = (seq 0 (data_len (dl_dataset train_loader)), g)
  | Raise _ => True
  end.
Proof.
  split; [reflexivity|].
  unfold load_data. unfold bind at 1.
  destruct (random_split _ _ st) as [[parts|e] st1]; [|done].
  destruct parts as [|tr [|va [|x parts]]]; try done.
  unfold bind, lift, DataLoader_init, ret.
  repeat case_decide; try done.
Qed.

(** ** [main] runs to completion *)

Section Completion.
Context (laws : FrameworkLaws F).

Lemma for_each_returns {A} (body : A -> M unit) (l : list A) (st : St) :
  (forall x s, exists s', body x s = (Ok tt, s')) ->
  exists st', for_each l body st = (Ok tt, st').
Proof.
  intros Hbody. revert st. induction l as [|x l IH]; intros st; simpl.
  - by eexists.
  - destruct (Hbody x st) as [s1 H1]. destruct (IH s1) as [s2 H2].
    exists s2. by rewrite (bind_ok _ _ _ _ _ H1).
Qed.

Lemma split_indices (g : Rng) :
  Forall (fun j => (j < Z.to_nat 50000)%nat) (train_indices g)
  /\ Forall (fun j => (j < Z.to_nat 50000)%nat) (validation_indices g)
  /\ length (train_indices g) = Z.to_nat 40000
  /\ length (validation_indices g) = Z.to_nat 10000.
Proof.
  unfold train_indices, validation_indices.
  set (perm := (randperm (Z.to_nat 50000) g).1).
  assert (Hperm : Permutation perm (seq 0 (Z.to_nat 50000)))
    by apply randperm_perm.
  assert (Hplen : length perm = Z.to_nat 50000)
    by by rewrite (Permutation_length Hperm), length_seq.
  assert (Hall : Forall (fun j => (j < Z.to_nat 50000)%nat) perm).
  { rewrite Hperm. apply Forall_forall. intros j Hj%elem_of_seq. lia. }
  split; [by apply Forall_take|].
  split; [by apply Forall_take, Forall_drop|].
  rewrite !length_take, length_drop. lia.
Qed.

Lemma main_completes (fl : Flags) (cfg : Config) (resume : bool)
    (src : Cifar10) (sys : Sys) :
  train_CNN fl || train_FC fl = true ->
  (0 <= learning_rate cfg)%Q ->
  (0 <= weight_decay cfg)%Q ->
  Z.of_nat (length (cifar_train src)) = 50000 ->
  0 < batch_size cfg ->
  0 <= num_workers cfg ->
  (resume = true ->
   exists ck,
     sys_fs sys !! checkpoint_file cfg = Some ck
     /\ forall m o,
          setup_model fl = Ok m ->
          SGD m (learning_rate cfg) (weight_decay cfg) = Ok o ->
          model_accepts m (ck_state_dict ck) = true
          /\ optimizer_accepts o (ck_optimizer ck) = true) ->
  exists sys', main fl cfg resume src sys = (Ok tt, sys').
Proof.
  intros Hfl Hlr Hwd Hlen Hb Hw Hres. unfold main.
  assert (exists m, setup_model fl = Ok m) as [m Hm].
  { unfold setup_model. destruct (train_CNN fl), (train_FC fl); by eauto. }
  assert (exists o, SGD m (learning_rate cfg) (weight_decay cfg) = Ok o) as [o Ho].
  { unfold SGD.
    destruct (Qlt_le_dec (learning_rate cfg) 0) as [Hneg|_];
      [by apply Qlt_not_le in Hneg|].
    destruct (Qlt_le_dec (weight_decay cfg) 0) as [Hneg|_];
      [by apply Qlt_not_le in Hneg|].
    by eexists. }
  rewrite Hm, Ho.
  destruct (split_indices (sys_rng sys)) as (Htr & Hva & Htrlen & Hvalen).
  assert (exists st', main_loop fl cfg resume src (enter m o sys) = (Ok tt, st'))
    as [st' Hrun]; [|rewrite Hrun; by eexists].
  unfold main_loop.
  rewrite (bind_ok _ _ _ _ _ (load_data_run cfg src _ Hlen Hb Hw)).
  set (st1 := set_rng _ (enter m o sys)).
  assert (exists st2,
            (if resume then load_model cfg (checkpoint_file cfg) else ret tt) st1
            = (Ok tt, st2)) as [st2 Hload].
  { destruct resume; [|by eexists].
    destruct (Hres eq_refl) as (ck & Hfile & Hacc).
    destruct (Hacc m o Hm Ho) as [Hma Hoa].
    eexists. by apply load_model_run. }
  rewrite (bind_ok _ _ _ _ _ Hload).
  apply for_each_returns. intros epoch s.
  destruct (epoch_body_returns laws fl cfg
              (mkDataLoader
                 (Part (mkSubset (CIFAR10 src true transformations.1)
                                 (train_indices (rng (enter m o sys)))))
                 (batch_size cfg) false (num_workers cfg))
              (mkDataLoader
                 (Part (mkSubset (CIFAR10 src true transformations.1)
                                 (validation_indices (rng (enter m o sys)))))
                 (batch_size cfg) false (num_workers cfg))
              epoch s) as (kv & s' & Hs' & _);
    cbn [dl_dataset dl_batch_size data_wf data_len ss_dataset ss_indices
         d_items CIFAR10 enter rng];
    try done; try lia.
  - eapply Forall_impl; [exact Htr|]. intros j Hj. cbv beta in Hj |- *. lia.
  - eapply Forall_impl; [exact Hva|]. intros j Hj. cbv beta in Hj |- *. lia.
  - by exists s'.
Qed.

End Completion.

(** ** What the methods keep and what they raise *)

Section Frame.
Context {X : Type} (v : View X) (E : PyExn -> Prop).

Lemma behaves_ret {A} (a : A) : behaves v E (ret a).
Proof. intros st. split; [done|]. by intros e [=]. Qed.

Lemma behaves_raise {A} (e : PyExn) : E e -> behaves v E (raise (A := A) e).
Proof. intros He st. split; [done|]. by intros e' [= <-]. Qed.

Lemma behaves_lift {A} (r : Result A) :
  (forall e, r = Raise e -> E e) -> behaves v E (lift r).
Proof. intros Hr st. split; [done|]. exact Hr. Qed.

Lemma behaves_modify (f : St -> St) :
  (forall st, view v (f st) = view v st) -> behaves v E (modify f).
Proof. intros Hf st. split; [apply Hf|]. by intros e [=]. Qed.

Lemma behaves_bind {A B} (m : M A) (k : A -> M B) :
  behaves v E m -> (forall a, behaves v E (k a)) -> behaves v E (bind m k).
Proof.
  intros Hm Hk st. unfold bind. destruct (Hm st) as [Hv He].
  destruct (m st) as [[a|e] st1]; simpl in *.
  - destruct (Hk a st1) as [Hv' He']. split; [congruence|done].
  - split; [done|]. intros e' [= <-]. by apply He.
Qed.

Lemma behaves_for_each {A} (body : A -> M unit) (l : list A) :
  (forall a, behaves v E (body a)) -> behaves v E (for_each l body).
Proof.
  intros Hbody. induction l as [|a l IH]; simpl.
  - apply behaves_ret.
  - apply behaves_bind; [apply Hbody|]. by intros _.
Qed.

Lemma behaves_for_fold {A B} (body : B -> A -> M B) (l : list A) (acc : B) :
  (forall b a, behaves v E (body b a)) -> behaves v E (for_fold l acc body).
Proof.
  intros Hbody. revert acc. induction l as [|a l IH]; intros acc; simpl.
  - apply behaves_ret.
  - apply behaves_bind; [apply Hbody|]. intros acc'. apply IH.
Qed.

Lemma behaves_print (o : Output) : behaves v E (print o).
Proof. apply behaves_modify. intros st. apply view_out. Qed.

Lemma behaves_call_model (x : list Input) : behaves v E (call_model x).
Proof.
  intros st. split; [|by intros e [=]].
  unfold call_model. simpl. by rewrite view_call, view_model.
Qed.

Lemma behaves_call_criterion (scores : list (list Q)) (target : list Z) :
  behaves v E (call_criterion scores target).
Proof. intros st. split; [apply view_call|by intros e [=]]. Qed.

Lemma behaves_zero_grad : behaves v E zero_grad.
Proof.
  apply behaves_modify. intros st. by rewrite view_call, view_model.
Qed.

Lemma behaves_loss_backward (data : list Input) (target : list Z) :
  behaves v E (loss_backward data target).
Proof.
  apply behaves_modify. intros st. by rewrite view_call, view_model.
Qed.

Lemma behaves_optimizer_step : behaves v E optimizer_step.
Proof.
  apply behaves_modify. intros st. rewrite view_call.
  set (m' := mkModel _ _ _ _).
  rewrite (view_step _ v _ (set_model m' st)). apply view_model.
Qed.

Lemma behaves_model_mode (b : bool) :
  behaves v E (modify (fun st => set_model (set_training b (model st)) st)).
Proof. apply behaves_modify. intros st. apply view_model. Qed.

End Frame.

Lemma map_result_raise {A B} (f : A -> Result B) (l : list A) (e : PyExn) :
  map_result f l = Raise e -> exists a, f a = Raise e.
Proof.
  induction l as [|a l IH]; simpl; [done|].
  destruct (f a) as [b|e'] eqn:Ha; [|intros [= <-]; by exists a].
  destruct (map_result f l) as [bs|e']; [done|].
  intros [= <-]. by apply IH.
Qed.

Lemma data_get_raise (d : Data) (i : nat) (e : PyExn) :
  data_get d i = Raise e -> e = IndexError.
Proof.
  assert (Hds : forall ds j, dataset_get ds j = Raise e -> e = IndexError).
  { intros ds j. unfold dataset_get.
    destruct (d_items ds !! j) as [[img label]|]; [done|]. by intros [= <-]. }
  destruct d as [ds|s]; simpl; [apply Hds|].
  destruct (ss_indices s !! i); [apply Hds|]. by intros [= <-].
Qed.

Lemma batches_of_raise (dl : DataLoader) (order : list nat) (e : PyExn) :
  batches_of dl order = Raise e -> e = IndexError.
Proof.
  unfold batches_of. intros [idxs Hidxs]%map_result_raise.
  unfold fetch_batch in Hidxs.
  destruct (map_result _ idxs) as [samples|e'] eqn:Hs; [done|].
  injection Hidxs as ->. apply map_result_raise in Hs as [i Hi].
  by eapply data_get_raise.
Qed.

Lemma eq_sum_raise (p y : list Z) (e : PyExn) :
  eq_sum p y = Raise e -> e = RuntimeError.
Proof.
  unfold eq_sum. case_decide; [done|].
  destruct p as [|a [|a' p]], y as [|b [|b' y]]; try done; by intros [= <-].
Qed.

Lemma py_truediv_raise (a b : Q) (e : PyExn) :
  py_truediv a b = Raise e -> e = ZeroDivisionError.
Proof. unfold py_truediv. destruct (Qeq_bool b 0); [by intros [= <-]|done]. Qed.

Section MethodsBehave.
Context {X : Type} (v : View X) (E : PyExn -> Prop).
Hypothesis E_index : E IndexError.
Hypothesis E_runtime : E RuntimeError.
Hypothesis E_zero : E ZeroDivisionError.

Lemma behaves_iter_loader (dl : DataLoader) : behaves v E (iter_loader dl).
Proof.
  intros st. unfold iter_loader. simpl. split; [apply view_rng|].
  intros e He. by rewrite (batches_of_raise _ _ _ He).
Qed.

Lemma behaves_accuracy_step (fl : Flags) (acc : Z * Z) (b : Batch) :
  behaves v E (accuracy_step fl acc b).
Proof.
  destruct acc as [nc ns], b as [x y]. unfold accuracy_step.
  apply behaves_bind; [apply behaves_call_model|]. intros scores.
  apply behaves_bind; [|intros c; apply behaves_ret].
  apply behaves_lift. intros e He. by rewrite (eq_sum_raise _ _ _ He).
Qed.

Lemma behaves_check_accuracy (fl : Flags) (loader : DataLoader) :
  behaves v E (check_accuracy fl loader).
Proof.
  unfold check_accuracy.
  apply behaves_bind; [apply behaves_model_mode|]. intros _.
  apply behaves_bind; [apply behaves_iter_loader|]. intros batches.
  apply behaves_bind;
    [apply behaves_for_fold; intros; apply behaves_accuracy_step|].
  intros [nc ns].
  apply behaves_bind.
  { apply behaves_lift. intros e He. by rewrite (py_truediv_raise _ _ _ He). }
  intros ratio.
  apply behaves_bind; [apply behaves_print|]. intros _.
  apply behaves_bind; [apply behaves_model_mode|]. intros _.
  apply behaves_ret.
Qed.

Lemma behaves_train_step (fl : Flags) (acc : Z * Z * list Q) (b : Batch) :
  behaves v E (train_step fl acc b).
Proof.
  destruct acc as [[nc tc] losses], b as [data target]. unfold train_step.
  apply behaves_bind; [apply behaves_call_model|]. intros scores.
  apply behaves_bind; [apply behaves_call_criterion|]. intros loss.
  apply behaves_bind; [apply behaves_zero_grad|]. intros _.
  apply behaves_bind; [apply behaves_loss_backward|]. intros _.
  apply behaves_bind; [apply behaves_optimizer_step|]. intros _.
  apply behaves_bind; [|intros c; apply behaves_ret].
  apply behaves_lift. intros e He. by rewrite (eq_sum_raise _ _ _ He).
Qed.

Lemma behaves_batch_loop (fl : Flags) (loader : DataLoader) :
  behaves v E (batch_loop fl loader).
Proof.
  unfold batch_loop.
  apply behaves_bind; [apply behaves_iter_loader|]. intros batches.
  apply behaves_for_fold. intros. apply behaves_train_step.
Qed.

(** An epoch keeps a view when it does not save, or when the view does not
    show the files. *)
Lemma behaves_epoch_body (fl : Flags) (cfg : Config)
    (train_loader validation_loader : DataLoader) (epoch : Z) :
  save_model cfg = false \/ (forall f st, view v (set_fs f st) = view v st) ->
  behaves v E (epoch_body fl cfg train_loader validation_loader epoch).
Proof.
  intros Hsave. unfold epoch_body.
  apply behaves_bind; [apply behaves_batch_loop|]. intros [[nc tc] losses].
  apply behaves_bind.
  { destruct (save_model cfg) eqn:Hs; [|apply behaves_ret].
    destruct Hsave as [|Hfs]; [done|].
    intros st. unfold save_checkpoint.
    refine (behaves_bind v E _ _ (behaves_print v E _) _ st). intros _.
    apply behaves_bind; [apply behaves_print|]. intros _.
    apply behaves_modify. intros st'. apply Hfs. }
  intros _.
  apply behaves_bind.
  { apply behaves_lift. intros e He. by rewrite (py_truediv_raise _ _ _ He). }
  intros mean.
  apply behaves_bind; [apply behaves_print|]. intros _.
  apply behaves_bind; [apply behaves_print|]. intros _.
  apply behaves_bind; [apply behaves_check_accuracy|]. intros _.
  apply behaves_bind.
  { apply behaves_lift. intros e He. by rewrite (py_truediv_raise _ _ _ He). }
  intros tacc.
  apply behaves_bind; [apply behaves_print|]. intros _.
  apply behaves_print.
Qed.

Hypothesis E_value : E ValueError.

Lemma behaves_load_data (cfg : Config) (src : Cifar10) :
  behaves v E (load_data cfg src).
Proof.
  assert (Hinit : forall d b s w e, DataLoader_init d b s w = Raise e -> E e).
  { intros d b s w e. unfold DataLoader_init.
    repeat case_decide; try done; by intros [= <-]. }
  unfold load_data. apply behaves_bind.
  { intros st. unfold random_split. case_decide; simpl.
    - split; [apply view_rng|done].
    - split; [done|]. by intros e [= <-]. }
  intros [|tr [|va [|x parts]]]; try by apply behaves_raise.
  repeat (apply behaves_bind; [apply behaves_lift, Hinit|intros ?]).
  apply behaves_ret.
Qed.

End MethodsBehave.

Section MainBehaves.
Context {X : Type} (v : View X) (E : PyExn -> Prop).
Hypothesis E_training : forall e, training_error e -> E e.

Lemma behaves_load_model (cfg : Config) (path : string) :
  (forall o st, view v (set_optimizer o st) = view v st) ->
  E FileNotFoundError ->
  behaves v E (load_model cfg path).
Proof.
  intros Hopt Hfile. unfold load_model.
  apply behaves_bind.
  { intros st. unfold torch_load. destruct (fs st !! path); simpl.
    - split; [done|]. by intros e [=].
    - split; [done|]. by intros e [= <-]. }
  intros ck. apply behaves_bind.
  { intros st. unfold load_state_dict.
    destruct (_ && _); simpl.
    - split; [apply view_model|by intros e [=]].
    - split; [done|]. intros e [= <-]. apply E_training. unfold training_error. tauto. }
  intros _. apply behaves_bind.
  { intros st. unfold optimizer_load_state_dict.
    destruct (negb _); simpl;
      [split; [done|]; intros e [= <-]; apply E_training;
       unfold training_error; tauto|].
    destruct (negb _); simpl;
      [split; [done|]; intros e [= <-]; apply E_training;
       unfold training_error; tauto|].
    split; [apply Hopt|by intros e [=]]. }
  intros _. apply behaves_bind; [|intros _; apply behaves_print].
  apply behaves_modify. intros st. apply Hopt.
Qed.

Lemma behaves_main_loop (fl : Flags) (cfg : Config) (resume : bool)
    (src : Cifar10) :
  save_model cfg = false \/ (forall f st, view v (set_fs f st) = view v st) ->
  resume = false
  \/ ((forall o st, view v (set_optimizer o st) = view v st)
      /\ E FileNotFoundError) ->
  behaves v E (main_loop fl cfg resume src).
Proof.
  assert (Ht : forall e, training_error e -> E e) by exact E_training.
  intros Hsave Hres. unfold main_loop.
  apply behaves_bind.
  { apply behaves_load_data. apply Ht. unfold training_error. tauto. }
  intros [[tr va] te]. apply behaves_bind.
  { destruct resume; [|apply behaves_ret].
    destruct Hres as [|[Hopt Hfile]]; [done|]. by apply behaves_load_model. }
  intros _. apply behaves_for_each. intros epoch.
  apply behaves_epoch_body; try done; apply Ht; unfold training_error; tauto.
Qed.

End MainBehaves.

(** X11: a run of [main] that does not save writes no checkpoint file,
    whether it resumes or not and however it ends. *)
Theorem main_without_saving_keeps_files (fl : Flags) (cfg : Config)
    (resume : bool) (src : Cifar10) (sys : Sys) :
  save_model cfg = false ->
  sys_fs (main fl cfg resume src sys).2 = sys_fs sys.
Proof.
  intros Hsave. unfold main.
  destruct (setup_model fl) as [m|e]; [|done].
  destruct (SGD m _ _) as [o|e]; [|done]. simpl.
  destruct (behaves_main_loop fs_view (fun _ => True) (fun _ _ => I)
              fl cfg resume src (or_introl Hsave)
              (or_intror (conj (fun _ _ => eq_refl) I)) (enter m o sys))
    as [Hfs _].
  exact Hfs.
Qed.

(** ** What a checkpoint written by [main] holds *)

Lemma for_each_last_inv {A} (Inv : St -> Prop) (P : A -> St -> Prop)
    (body : A -> M unit) (l : list A) (a : A) (st st' : St) :
  (forall x s s', Inv s -> body x s = (Ok tt, s') -> Inv s' /\ P x s') ->
  Inv st ->
  last l = Some a ->
  for_each l body st = (Ok tt, st') ->
  P a st'.
Proof.
  intros Hbody. revert st. induction l as [|x l IH]; intros st Hinv; [done|].
  simpl for_each. unfold bind.
  destruct (body x st) as [[[]|e] st1] eqn:Hx; [|done].
  destruct (Hbody x st st1 Hinv Hx) as [Hinv1 HP].
  destruct l as [|y l].
  - simpl. unfold ret. by intros [= <-] [= <-].
  - intros Hlast. by apply (IH st1).
Qed.

Lemma epoch_body_saved_groups (fl : Flags) (cfg : Config)
    (train_loader validation_loader : DataLoader) (epoch : Z) (st st' : St) :
  save_model cfg = true ->
  epoch_body fl cfg train_loader validation_loader epoch st = (Ok tt, st') ->
  param_groups (optimizer st') = param_groups (optimizer st)
  /\ exists ck,
       fs st' !! checkpoint_file cfg = Some ck
       /\ sd_param_groups (ck_optimizer ck) = param_groups (optimizer st).
Proof.
  intros Hsave Hrun. split.
  - destruct (behaves_epoch_body groups_view (fun _ => True) I I I fl cfg
                train_loader validation_loader epoch
                (or_intror (fun _ _ => eq_refl)) st) as [Hg _].
    by rewrite Hrun in Hg.
  - rewrite epoch_body_run in Hrun.
    destruct (behaves_batch_loop groups_view (fun _ => True) I I fl
                train_loader st) as [Hg1 _].
    destruct (batch_loop fl train_loader st) as [[sums|e] st1]; [|done].
    unfold epoch_summary in Hrun.
    destruct (py_truediv _ _) as [mean|e]; [|done].
    set (st3 := add_out PrintValidation _) in Hrun.
    destruct (behaves_check_accuracy fs_view (fun _ => True) I I I fl
                validation_loader st3) as [Hfs _].
    destruct (check_accuracy fl validation_loader st3) as [[acc|e] st4]; [|done].
    destruct (py_truediv _ _) as [tacc|e]; [|done].
    injection Hrun as <-. simpl in Hfs, Hg1 |- *. rewrite Hfs.
    unfold after_save. rewrite Hsave. simpl. rewrite lookup_insert_eq.
    eexists. split; [reflexivity|]. simpl. exact Hg1.
Qed.

Lemma load_model_groups (cfg : Config) (path : string) (st st' : St) :
  load_model cfg path st = (Ok tt, st') ->
  Forall (fun g => pg_lr g = learning_rate cfg
                   /\ pg_weight_decay g = weight_decay cfg)
         (param_groups (optimizer st')).
Proof.
  unfold load_model, bind, torch_load.
  destruct (fs st !! path) as [ck|]; [|done].
  destruct (load_state_dict _ _) as [m|e]; [|done].
  destruct (optimizer_load_state_dict _ _) as [o|e]; [|done].
  intros [= <-]. simpl. apply Forall_forall.
  intros g [g0 [-> _]]%list_elem_of_fmap. done.
Qed.

(** X12: when [main] completes with saving enabled, the checkpoint file
    holds, in every parameter group, the learning rate and the weight decay
    of the configuration: the optimizer is built with them or has them set
    by [load_model], and no epoch changes them. *)
Theorem main_saves_configured_rates (fl : Flags) (cfg : Config) (resume : bool)
    (src : Cifar10) (sys sys' : Sys) :
  save_model cfg = true ->
  0 < num_epochs cfg ->
  main fl cfg resume src sys = (Ok tt, sys') ->
  exists ck,
    sys_fs sys' !! checkpoint_file cfg = Some ck
    /\ Forall (fun g => pg_lr g = learning_rate cfg
                        /\ pg_weight_decay g = weight_decay cfg)
              (sd_param_groups (ck_optimizer ck)).
Proof.
  intros Hsave Hn. unfold main.
  destruct (setup_model fl) as [m|e]; [|done].
  destruct (SGD m _ _) as [o|e] eqn:Ho; [|done].
  destruct (main_loop fl cfg resume src (enter m o sys)) as [r st3] eqn:Hrun.
  simpl. intros [= -> <-]. simpl.
  unfold main_loop in Hrun. unfold bind at 1 in Hrun.
  destruct (behaves_load_data groups_view (fun _ => True) I cfg src
              (enter m o sys)) as [Hg1 _].
  destruct (load_data cfg src _) as [[[[tr va] te]|e] st1]; [|done].
  unfold bind at 1 in Hrun.
  set (has_cfg := fun g => pg_lr g = learning_rate cfg
                           /\ pg_weight_decay g = weight_decay cfg).
  assert (Hinit : Forall has_cfg (param_groups o)).
  { unfold SGD in Ho. repeat destruct (Qlt_le_dec _ _); try done.
    injection Ho as <-. by repeat constructor. }
  destruct ((if resume then load_model cfg (checkpoint_file cfg) else ret tt) st1)
    as [[[]|e] st2] eqn:Hload; [|done].
  assert (Hinv : Forall has_cfg (param_groups (optimizer st2))).
  { destruct resume.
    - by eapply load_model_groups.
    - injection Hload as <-. simpl in Hg1. by rewrite Hg1. }
  eapply (for_each_last_inv
            (fun s => Forall has_cfg (param_groups (optimizer s)))
            (fun _ s => exists ck,
                 fs s !! checkpoint_file cfg = Some ck
                 /\ Forall has_cfg (sd_param_groups (ck_optimizer ck))));
    [|exact Hinv|by apply range_last|exact Hrun].
  intros x s s' Hs Hx.
  destruct (epoch_body_saved_groups fl cfg tr va x s s' Hsave Hx)
    as (Hg & ck & Hck & Hckg).
  split; [by rewrite Hg|]. exists ck. split; [done|]. by rewrite Hckg.
Qed.

(** ** The evaluator, exactly *)

Section EvaluatorExact.
Context (laws : FrameworkLaws F).

Lemma accuracy_step_exact (fl : Flags) (nc ns : Z) (b : Batch) (st : St) :
  m_training (model st) = false ->
  batch_wf b ->
  accuracy_step fl (nc, ns) b st
  = (Ok (nc + batch_correct fl (model st) b, ns + Z.of_nat (length b.1)),
     add_calls [CallForward] st).
Proof.
  intros Hev [Hlen _]. destruct b as [x y]. simpl in Hlen.
  unfold batch_correct. simpl.
  set (x' := if train_FC fl then map flatten x else x).
  assert (Hx' : length x' = length x).
  { unfold x'. destruct (train_FC fl); by rewrite ?length_map. }
  set (r := forward (m_arch (model st)) false (m_state (model st)) x').
  assert (Hr : length (map argmax r.1) = length x).
  { rewrite length_map. unfold r. by rewrite forward_rows. }
  unfold bind, call_model, lift, ret. rewrite Hev. fold r.
  rewrite eq_sum_aligned by congruence. rewrite Hr.
  unfold r at 2. rewrite forward_eval_frozen.
  do 2 f_equal. rewrite <- Hev.
  replace (mkModel _ _ _ _) with (model st) by by destruct (model st).
  by rewrite set_model_same.
Qed.

Lemma accuracy_loop_exact (fl : Flags) (bs : list Batch) (nc ns : Z) (st : St) :
  m_training (model st) = false ->
  Forall batch_wf bs ->
  for_fold bs (nc, ns) (accuracy_step fl) st
  = (Ok (nc + loader_correct fl (model st) bs, ns + total_samples bs),
     add_calls (replicate (length bs) CallForward) st).
Proof.
  intros Hev Hall. revert nc ns st Hev.
  induction Hall as [|b bs Hb _ IH]; intros nc ns st Hev.
  - simpl. unfold ret. by rewrite add_calls_nil, !Z.add_0_r.
  - simpl for_fold.
    rewrite (bind_ok _ _ _ _ _ (accuracy_step_exact fl nc ns b st Hev Hb)).
    rewrite IH by done. rewrite add_calls_app. simpl.
    by rewrite <- !Z.add_assoc.
Qed.

Lemma loader_correct_bounds (fl : Flags) (m : Model) (bs : list Batch) :
  Forall batch_wf bs -> 0 <= loader_correct fl m bs <= total_samples bs.
Proof.
  induction 1 as [|b bs [Hlen _] _ IH]; simpl; [lia|].
  pose proof (count_eq_bounds
                (map argmax
                   (forward (m_arch m) false (m_state m)
                      (if train_FC fl then map flatten b.1 else b.1)).1) b.2) as Hc.
  rewrite length_map, forward_rows in Hc.
  assert (length (if train_FC fl then map flatten b.1 else b.1) = length b.1)
    as Hx by (destruct (train_FC fl); by rewrite ?length_map).
  rewrite Hx in Hc. unfold batch_correct. lia.
Qed.

Lemma check_accuracy_value (fl : Flags) (loader : DataLoader) (st : St)
    (bs : list Batch) :
  (iter_loader loader st).1 = Ok bs -> bs <> [] ->
  let c := loader_correct fl (model st) bs in
  let n := total_samples bs in
  let acc := (inject_Z c / inject_Z n * 100)%Q in
  check_accuracy fl loader st
  = (Ok acc, eval_returned loader (length bs) (PrintGot c n acc) st).
Proof.
  unfold iter_loader; simpl. intros Hb Hne.
  pose proof (batches_of_wf _ _ _ Hb) as Hwf.
  pose proof (total_samples_pos bs Hne Hwf) as Hpos.
  set (st2 := set_rng (sampler loader (rng st)).2
                (set_model (set_training false (model st)) st)).
  pose proof (accuracy_loop_exact fl bs 0 0 st2 eq_refl Hwf) as Hloop.
  unfold check_accuracy, bind, model_eval, modify, iter_loader. simpl.
  rewrite Hb. fold st2. rewrite Hloop. simpl.
  unfold lift. rewrite py_truediv_pos by done. reflexivity.
Qed.

(** X3: over a loader with valid indices, positive batch size [B] and
    [N >= 1] samples, with flags that fit the model, the evaluator returns;
    it has counted every sample once (the line it prints carries [N] and a
    count of correct predictions between 0 and [N]), printed that one line,
    made [ceil(N / B)] forward passes and no other framework call, and left
    the optimizer and the files alone. *)
Theorem check_accuracy_counts (fl : Flags) (loader : DataLoader) (st : St) :
  input_fits fl (model st) ->
  data_wf (dl_dataset loader) ->
  0 < dl_batch_size loader ->
  data_len (dl_dataset loader) <> 0%nat ->
  let n := Z.of_nat (data_len (dl_dataset loader)) in
  exists c acc st',
    check_accuracy fl loader st = (Ok acc, st')
    /\ 0 <= c <= n
    /\ out st' = out st ++ [PrintGot c n acc]
    /\ calls st'
       = calls st
         ++ replicate (Z.to_nat (ceil_div n (dl_batch_size loader))) CallForward
    /\ optimizer st' = optimizer st
    /\ fs st' = fs st.
Proof.
  intros _ Hwf Hpos Hn n.
  destruct (iter_loader_ok laws loader st Hwf) as (bs & Hbs & Hnil & Hlen).
  specialize (Hlen Hpos). fold n in Hlen.
  assert (Hne : bs <> []) by tauto.
  assert (Hbwf : Forall batch_wf bs).
  { unfold iter_loader in Hbs. simpl in Hbs. by eapply batches_of_wf. }
  assert (Htot : total_samples bs = n).
  { unfold iter_loader in Hbs. simpl in Hbs.
    rewrite (batches_of_total _ _ _ Hbs). unfold n.
    by rewrite (sampler_length laws). }
  pose proof (check_accuracy_value fl loader st bs Hbs Hne) as Hrun.
  simpl in Hrun. rewrite Htot in Hrun.
  eexists _, _, _. split; [exact Hrun|]. simpl.
  split; [rewrite <- Htot; by apply loader_correct_bounds|].
  split; [done|]. split; [|done].
  do 2 f_equal. lia.
Qed.

Lemma check_accuracy_keeps (fl : Flags) (loader : DataLoader) (st : St) :
  let r := check_accuracy fl loader st in
  fs r.2 = fs st /\ optimizer r.2 = optimizer st
  /\ m_state (model r.2) = m_state (model st).
Proof.
  simpl. destruct (iter_loader loader st).1 as [bs|e] eqn:Hb.
  - destruct (check_accuracy_steps laws fl loader st bs Hb) as (c & _ & ->).
    by destruct (py_truediv _ _).
  - by rewrite (check_accuracy_raise fl loader st e Hb).
Qed.

End EvaluatorExact.

(** ** An epoch, exactly *)

Lemma ratio_bounds (c n : Z) :
  0 <= c <= n -> 0 < n ->
  (0 <= inject_Z c / inject_Z n /\ inject_Z c / inject_Z n <= 1)%Q.
Proof.
  intros Hc Hn. destruct n as [|p|p]; try lia.
  unfold Qle, Qdiv, Qmult, Qinv, inject_Z. simpl.
  rewrite ?Pos.mul_1_r, ?Z.mul_1_r. lia.
Qed.

Section EpochExact.
Context (laws : FrameworkLaws F).

Lemma epoch_summary_exact (fl : Flags) (cfg : Config)
    (validation_loader : DataLoader) (epoch : Z) (sums : Z * Z * list Q)
    (bsv : list Batch) (st1 : St) :
  sums.2 <> [] ->
  0 < sums.1.2 ->
  (iter_loader validation_loader st1).1 = Ok bsv ->
  bsv <> [] ->
  epoch_summary fl cfg validation_loader epoch sums st1
  = (Ok tt, epoch_end fl cfg validation_loader epoch sums bsv st1).
Proof.
  intros Hls Htc Hbsv Hne. unfold epoch_summary, epoch_end.
  rewrite py_truediv_pos by (destruct sums.2; [done|simpl; lia]).
  set (st3 := add_out PrintValidation _).
  assert (Hb3 : (iter_loader validation_loader st3).1 = Ok bsv).
  { unfold iter_loader in *. simpl in *. unfold after_save.
    by destruct (save_model cfg). }
  rewrite (check_accuracy_value laws fl validation_loader st3 bsv Hb3 Hne).
  by rewrite py_truediv_pos.
Qed.

(** An epoch over well-formed, non-empty loaders: the state it ends in. *)
Lemma epoch_body_exact (fl : Flags) (cfg : Config)
    (train_loader validation_loader : DataLoader) (epoch : Z) (st : St) :
  data_wf (dl_dataset train_loader) ->
  0 < dl_batch_size train_loader ->
  data_len (dl_dataset train_loader) <> 0%nat ->
  data_wf (dl_dataset validation_loader) ->
  0 < dl_batch_size validation_loader ->
  data_len (dl_dataset validation_loader) <> 0%nat ->
  let n := Z.of_nat (data_len (dl_dataset train_loader)) in
  let k := Z.to_nat (ceil_div n (dl_batch_size train_loader)) in
  let nv := Z.of_nat (data_len (dl_dataset validation_loader)) in
  let kv := Z.to_nat (ceil_div nv (dl_batch_size validation_loader)) in
  exists num_correct losses st1 bsv,
    batch_loop fl train_loader st = (Ok (num_correct, n, losses), st1)
    /\ 0 <= num_correct <= n
    /\ length losses = k
    /\ train_frame k (set_rng (sampler train_loader (rng st)).2 st) st1
    /\ Forall batch_wf bsv
    /\ length bsv = kv
    /\ total_samples bsv = nv
    /\ epoch_body fl cfg train_loader validation_loader epoch st
       = (Ok tt, epoch_end fl cfg validation_loader epoch
                   (num_correct, n, losses) bsv st1).
Proof.
  intros Hwf Hpos Hn Hwfv Hposv Hnv n k nv kv.
  destruct (batch_loop_ok laws fl train_loader st Hwf Hpos)
    as (nc & losses & st1 & Hloop & Hnc & Hls & Hframe).
  fold n in Hloop, Hnc, Hls, Hframe. fold k in Hls, Hframe.
  assert (Hn' : 0 < n) by (unfold n; lia).
  assert (Hk : (0 < k)%nat).
  { unfold k. pose proof (ceil_div_pos n _ Hn' Hpos). lia. }
  destruct (iter_loader_ok laws validation_loader st1 Hwfv)
    as (bsv & Hbsv & Hnil & Hlen).
  specialize (Hlen Hposv). fold nv in Hlen.
  assert (Htot : total_samples bsv = nv).
  { unfold iter_loader in Hbsv. simpl in Hbsv.
    rewrite (batches_of_total _ _ _ Hbsv). unfold nv.
    by rewrite (sampler_length laws). }
  exists nc, losses, st1, bsv.
  split; [done|]. split; [done|]. split; [done|]. split; [done|].
  split. { unfold iter_loader in Hbsv. simpl in Hbsv. by eapply batches_of_wf. }
  split; [unfold kv; lia|]. split; [done|].
  rewrite epoch_body_run, Hloop.
  apply epoch_summary_exact; simpl; try done.
  - destruct losses; [simpl in Hls; lia|done].
  - tauto.
Qed.

Lemma epoch_body_calls (fl : Flags) (cfg : Config)
    (train_loader validation_loader : DataLoader) (epoch : Z) (st : St) :
  data_wf (dl_dataset train_loader) ->
  0 < dl_batch_size train_loader ->
  data_len (dl_dataset train_loader) <> 0%nat ->
  data_wf (dl_dataset validation_loader) ->
  0 < dl_batch_size validation_loader ->
  data_len (dl_dataset validation_loader) <> 0%nat ->
  let k := Z.to_nat (ceil_div (Z.of_nat (data_len (dl_dataset train_loader)))
                              (dl_batch_size train_loader)) in
  let kv := Z.to_nat (ceil_div (Z.of_nat (data_len (dl_dataset validation_loader)))
                               (dl_batch_size validation_loader)) in
  exists st',
    epoch_body fl cfg train_loader validation_loader epoch st = (Ok tt, st')
    /\ calls st' = calls st ++ epoch_calls k kv.
Proof.
  intros Hwf Hpos Hn Hwfv Hposv Hnv k kv.
  destruct (epoch_body_exact fl cfg train_loader validation_loader epoch st
              Hwf Hpos Hn Hwfv Hposv Hnv)
    as (nc & losses & st1 & bsv & _ & _ & _ & Hframe & _ & Hlen & _ & Hrun).
  eexists. split; [exact Hrun|].
  unfold epoch_end, epoch_calls. simpl. unfold after_save.
  destruct Hframe as [_ _ _ _ _ _ Hcalls]. simpl in Hcalls.
  fold k in Hcalls. fold kv in Hlen. rewrite Hlen.
  destruct (save_model cfg); simpl; by rewrite Hcalls, <- app_assoc.
Qed.

(** X5: with flags that fit the model and training labels among the ten
    classes, an epoch over non-empty loaders prints, after the two
    checkpoint lines if it saves, exactly the mean loss, the validation
    header, the evaluator's line over all validation samples with an
    accuracy between 0 and 100, the running training accuracy, a ratio
    between 0 and 1, and a newline. *)
Theorem epoch_output (fl : Flags) (cfg : Config)
    (train_loader validation_loader : DataLoader) (epoch : Z) (st : St) :
  input_fits fl (model st) ->
  labels_fit (data_items (dl_dataset train_loader)) ->
  data_wf (dl_dataset train_loader) ->
  0 < dl_batch_size train_loader ->
  data_len (dl_dataset train_loader) <> 0%nat ->
  data_wf (dl_dataset validation_loader) ->
  0 < dl_batch_size validation_loader ->
  data_len (dl_dataset validation_loader) <> 0%nat ->
  exists mean c acc tacc st',
    epoch_body fl cfg train_loader validation_loader epoch st = (Ok tt, st')
    /\ out st'
       = out st
         ++ (if save_model cfg then [PrintBlank; PrintSaving] else [])
         ++ [PrintMeanLoss mean; PrintValidation;
             PrintGot c (Z.of_nat (data_len (dl_dataset validation_loader))) acc;
             PrintTrainAcc tacc; PrintNewline]
    /\ (0 <= acc)%Q /\ (acc <= 100)%Q
    /\ (0 <= tacc)%Q /\ (tacc <= 1)%Q.
Proof.
  intros _ _ Hwf Hpos Hn Hwfv Hposv Hnv.
  destruct (epoch_body_exact fl cfg train_loader validation_loader epoch st
              Hwf Hpos Hn Hwfv Hposv Hnv)
    as (nc & losses & st1 & bsv & _ & Hnc & _ & Hframe & Hbwf & _ & Htot & Hrun).
  assert (Hposn : 0 < total_samples bsv) by (rewrite Htot; lia).
  do 4 eexists. eexists. split; [exact Hrun|].
  destruct Hframe as [_ _ Hout _ _ _ _]. simpl in Hout.
  split; [|split; [|split; [|split]]].
  - unfold epoch_end. simpl. unfold after_save. rewrite Htot.
    destruct (save_model cfg); simpl; rewrite Hout;
      by rewrite <- ?app_assoc.
  - rewrite <- Htot. apply percent_bounds; [|done].
    by apply loader_correct_bounds.
  - rewrite <- Htot. apply percent_bounds; [|done].
    by apply loader_correct_bounds.
  - apply ratio_bounds; simpl; lia.
  - apply ratio_bounds; simpl; lia.
Qed.

(** X6: when an epoch that saves returns, the checkpoint file holds the
    model's state dictionary and the optimizer's state as they are in memory
    at the end of the epoch, the evaluator having changed neither, with the
    epoch number plus one. *)
Theorem epoch_checkpoint_current (fl : Flags) (cfg : Config)
    (train_loader validation_loader : DataLoader) (epoch : Z) (st st' : St) :
  save_model cfg = true ->
  epoch_body fl cfg train_loader validation_loader epoch st = (Ok tt, st') ->
  fs st' !! checkpoint_file cfg
  = Some (mkCheckpoint (m_state (model st')) (epoch + 1)
                       (optimizer_state_dict (optimizer st'))).
Proof.
  intros Hsave. rewrite epoch_body_run.
  destruct (batch_loop fl train_loader st) as [[sums|e] st1]; [|done].
  unfold epoch_summary. destruct (py_truediv _ _) as [mean|e]; [|done].
  set (st3 := add_out PrintValidation _).
  destruct (check_accuracy_keeps laws fl validation_loader st3)
    as (Hfs & Hopt & Hsd).
  destruct (check_accuracy fl validation_loader st3) as [[acc|e] st4]; [|done].
  destruct (py_truediv _ _) as [tacc|e]; [|done].
  intros [= <-]. simpl in Hfs, Hopt, Hsd |- *. rewrite Hfs, Hopt, Hsd.
  unfold after_save. rewrite Hsave. simpl. by rewrite lookup_insert_eq.
Qed.

End EpochExact.

(** ** [main] as a whole *)

Lemma for_each_calls {A} (body : A -> M unit) (cs : list Call) (l : list A)
    (st : St) :
  (forall x s, exists s', body x s = (Ok tt, s') /\ calls s' = calls s ++ cs) ->
  exists st',
    for_each l body st = (Ok tt, st')
    /\ calls st' = calls st ++ concat (replicate (length l) cs).
Proof.
  intros Hbody. revert st. induction l as [|x l IH]; intros st; simpl.
  - exists st. by rewrite app_nil_r.
  - destruct (Hbody x st) as (s1 & H1 & Hc1).
    destruct (IH s1) as (s2 & H2 & Hc2).
    exists s2. rewrite (bind_ok _ _ _ _ _ H1). split; [done|].
    by rewrite Hc2, Hc1, <- app_assoc.
Qed.

Lemma range_length (n : Z) : length (range n) = Z.to_nat n.
Proof. unfold range. by rewrite length_map, length_seq. Qed.

Section MainExact.
Context (laws : FrameworkLaws F).

(** X13: once the model and the optimizer exist, with flags that fit the
    model, training labels among the ten classes, a training source of
    50,000 images, a positive batch size [B] and, when resuming, a
    checkpoint the model and optimizer accept, the rest of [main] returns
    after [num_epochs] epochs, each of [ceil(40000 / B)] training
    iterations followed by [ceil(10000 / B)] forward passes of the
    evaluator, and makes no other framework call. *)
Theorem main_loop_trace (fl : Flags) (cfg : Config) (resume : bool)
    (src : Cifar10) (st : St) :
  input_fits fl (model st) ->
  labels_fit (cifar_train src) ->
  Z.of_nat (length (cifar_train src)) = 50000 ->
  0 < batch_size cfg ->
  0 <= num_workers cfg ->
  (resume = true ->
   exists ck,
     fs st !! checkpoint_file cfg = Some ck
     /\ model_accepts (model st) (ck_state_dict ck) = true
     /\ optimizer_accepts (optimizer st) (ck_optimizer ck) = true) ->
  exists st',
    main_loop fl cfg resume src st = (Ok tt, st')
    /\ calls st'
       = calls st
         ++ concat (replicate (Z.to_nat (num_epochs cfg))
                      (epoch_calls (Z.to_nat (ceil_div 40000 (batch_size cfg)))
                                   (Z.to_nat (ceil_div 10000 (batch_size cfg))))).
Proof.
  intros _ _ Hlen Hb Hw Hres.
  destruct (split_indices laws (rng st)) as (Htr & Hva & Htrlen & Hvalen).
  unfold main_loop.
  rewrite (bind_ok _ _ _ _ _ (load_data_run cfg src _ Hlen Hb Hw)).
  set (st1 := set_rng _ st).
  assert (exists st2,
            (if resume then load_model cfg (checkpoint_file cfg) else ret tt) st1
            = (Ok tt, st2) /\ calls st2 = calls st) as (st2 & Hload & Hc2).
  { destruct resume; [|by eexists].
    destruct (Hres eq_refl) as (ck & Hfile & Hma & Hoa).
    exists (loaded cfg ck st1). split; [by apply load_model_run|done]. }
  rewrite (bind_ok _ _ _ _ _ Hload). rewrite <- Hc2, <- range_length.
  apply for_each_calls. intros epoch s.
  destruct (epoch_body_calls laws fl cfg
              (mkDataLoader
                 (Part (mkSubset (CIFAR10 src true transformations.1)
                                 (train_indices (rng st))))
                 (batch_size cfg) false (num_workers cfg))
              (mkDataLoader
                 (Part (mkSubset (CIFAR10 src true transformations.1)
                                 (validation_indices (rng st))))
                 (batch_size cfg) false (num_workers cfg))
              epoch s) as (s' & Hs' & Hcs');
    cbn [dl_dataset dl_batch_size data_wf data_len ss_dataset ss_indices
         d_items CIFAR10] in *;
    try done; try lia.
  - eapply Forall_impl; [exact Htr|]. intros j Hj. cbv beta in Hj |- *. lia.
  - eapply Forall_impl; [exact Hva|]. intros j Hj. cbv beta in Hj |- *. lia.
  - exists s'. split; [done|]. rewrite Hcs', Htrlen, Hvalen.
    by rewrite !Z2Nat.id by lia.
Qed.

End MainExact.

(** X10: once the model and the optimizer exist, a resuming [main] whose
    checkpoint file does not exist raises [FileNotFoundError] right after
    the data are loaded: nothing is printed, no framework call is made, no
    file is written, and the model and the optimizer are untouched. *)
Theorem main_loop_missing_file (fl : Flags) (cfg : Config) (src : Cifar10)
    (st : St) :
  Z.of_nat (length (cifar_train src)) = 50000 ->
  0 < batch_size cfg ->
  0 <= num_workers cfg ->
  fs st !! checkpoint_file cfg = None ->
  exists st',
    main_loop fl cfg true src st = (Raise FileNotFoundError, st')
    /\ out st' = out st
    /\ calls st' = calls st
    /\ fs st' = fs st
    /\ model st' = model st
    /\ optimizer st' = optimizer st.
Proof.
  intros Hlen Hb Hw Hfile.
  exists (set_rng (randperm (Z.to_nat 50000) (rng st)).2 st).
  split; [|done].
  unfold main_loop.
  rewrite (bind_ok _ _ _ _ _ (load_data_run cfg src _ Hlen Hb Hw)).
  unfold bind at 1, load_model, bind at 1, torch_load.
  cbn [fs set_rng]. by rewrite Hfile.
Qed.

(** ** The remaining methods *)

(** X1: [load_data] raises [ValueError] when the training source
    does not have 50,000 images, when the batch size is not positive or when
    the number of workers is negative; in the first case the random
    generator has not been used. *)
Theorem load_data_rejects (cfg : Config) (src : Cifar10) (st : St) :
  Z.of_nat (length (cifar_train src)) <> 50000
  \/ batch_size cfg <= 0 \/ num_workers cfg < 0 ->
  (load_data cfg src st).1 = Raise ValueError
  /\ (Z.of_nat (length (cifar_train src)) <> 50000 ->
      (load_data cfg src st).2 = st).
Proof.
  intros Hbad. unfold load_data. unfold bind at 1. unfold random_split.
  change (sum_lengths [40000; 10000]) with 50000.
  case_decide as Hlen; simpl in Hlen.
  - rewrite split_lengths_two. cbn [map].
    unfold bind, lift, ret, DataLoader_init.
    split; [|lia].
    destruct (decide (num_workers cfg < 0)); [done|].
    destruct (decide (batch_size cfg <= 0)); [done|]. lia.
  - done.
Qed.

Lemma load_data_test_set (cfg : Config) (train test1 test2 : list (Raw * Z))
    (st : St) :
  let r1 := load_data cfg (mkCifar10 train test1) st in
  let r2 := load_data cfg (mkCifar10 train test2) st in
  r1.2 = r2.2 /\
  match r1.1, r2.1 with
  | Ok (tr1, va1, _), Ok (tr2, va2, _) => tr1 = tr2 /\ va1 = va2
  | Raise e1, Raise e2 => e1 = e2
  | _, _ => False
  end.
Proof.
  unfold load_data, bind, random_split, CIFAR10.
  cbn [d_items cifar_train cifar_test].
  case_decide; [|done].
  rewrite split_lengths_two. cbn [map].
  unfold lift, ret, DataLoader_init.
  destruct (decide (num_workers cfg < 0)); [done|].
  destruct (decide (batch_size cfg <= 0)); done.
Qed.

(** X2: [main] builds the test loader and never uses it: its outcome
    and everything it leaves behind are the same for any two test sets. *)
Theorem main_ignores_test_set (fl : Flags) (cfg : Config) (resume : bool)
    (train test1 test2 : list (Raw * Z)) (sys : Sys) :
  main fl cfg resume (mkCifar10 train test1) sys
  = main fl cfg resume (mkCifar10 train test2) sys.
Proof.
  unfold main. destruct (setup_model fl) as [m|e]; [|done].
  destruct (SGD m _ _) as [o|e]; [|done].
  assert (Hloop : main_loop fl cfg resume (mkCifar10 train test1) (enter m o sys)
                  = main_loop fl cfg resume (mkCifar10 train test2) (enter m o sys));
    [|by rewrite Hloop].
  unfold main_loop. unfold bind at 1 3.
  destruct (load_data_test_set cfg train test1 test2 (enter m o sys)) as [Hst Hres].
  destruct (load_data cfg (mkCifar10 train test1) _) as [[[[tr1 va1] te1]|e1] s1],
           (load_data cfg (mkCifar10 train test2) _) as [[[[tr2 va2] te2]|e2] s2];
    simpl in Hst, Hres; try done.
  - destruct Hres as [-> ->]. by rewrite Hst.
  - by rewrite Hst, Hres.
Qed.

(** X8: [load_model] is not atomic.  When the model accepts the saved
    state dictionary and the optimizer rejects the saved optimizer state, it
    raises [ValueError] with the model already overwritten from the
    checkpoint; the optimizer is as before and nothing is printed. *)
Theorem load_model_not_atomic (cfg : Config) (path : string) (ck : Checkpoint)
    (st : St) :
  fs st !! path = Some ck ->
  model_accepts (model st) (ck_state_dict ck) = true ->
  optimizer_accepts (optimizer st) (ck_optimizer ck) = false ->
  load_model cfg path st
  = (Raise ValueError,
     set_model (mkModel (m_arch (model st)) (ck_state_dict ck)
                        (m_grad (model st)) (m_training (model st))) st).
Proof.
  intros Hfile Hm Ho. unfold model_accepts in Hm.
  unfold load_model, bind, torch_load. rewrite Hfile.
  unfold load_state_dict. rewrite Hm.
  unfold optimizer_load_state_dict. simpl.
  apply andb_false_iff in Ho as [-> | ->]; simpl; [done|].
  by destruct (negb _).
Qed.

Lemma same_sizes_params (gs gs' saved : list ParamGroup) :
  map pg_params gs' = map pg_params gs ->
  same_sizes gs' saved = same_sizes gs saved.
Proof.
  unfold same_sizes. revert gs' saved.
  induction gs as [|g gs IH]; intros [|g' gs'] saved; try done.
  simpl. intros [= Hp Hps]. destruct saved as [|s saved]; [done|].
  simpl. by rewrite Hp, (IH gs' saved Hps).
Qed.

Lemma updated_params (cfg : Config) (gs saved : list ParamGroup) :
  length gs = length saved ->
  map pg_params (map (override_group cfg) (zip_with update_group gs saved))
  = map pg_params gs.
Proof.
  revert saved. induction gs as [|g gs IH]; intros [|s saved]; try done.
  simpl. intros [= Hlen]. by rewrite IH.
Qed.

Lemma update_group_params (gs gs' saved : list ParamGroup) :
  map pg_params gs' = map pg_params gs ->
  zip_with update_group gs' saved = zip_with update_group gs saved.
Proof.
  revert gs' saved. induction gs as [|g gs IH]; intros [|g' gs'] saved; try done.
  simpl. intros [= Hp Hps]. destruct saved as [|s saved]; [done|].
  simpl. unfold update_group at 1 3. by rewrite Hp, (IH gs' saved Hps).
Qed.

(** X9: loading the same checkpoint a second time succeeds and changes
    neither the model nor the optimizer; it only prints its line again. *)
Theorem load_model_twice (cfg : Config) (path : string) (ck : Checkpoint)
    (st : St) :
  fs st !! path = Some ck ->
  model_accepts (model st) (ck_state_dict ck) = true ->
  optimizer_accepts (optimizer st) (ck_optimizer ck) = true ->
  exists st1 st2,
    load_model cfg path st = (Ok tt, st1)
    /\ load_model cfg path st1 = (Ok tt, st2)
    /\ model st2 = model st1
    /\ optimizer st2 = optimizer st1
    /\ out st2 = out st1 ++ [PrintLoaded].
Proof.
  intros Hfile Hm Ho.
  pose proof Ho as Ho'. apply andb_true_iff in Ho' as [Hlen%bool_decide_eq_true Hsz].
  pose proof (updated_params cfg _ _ Hlen) as Hparams.
  exists (loaded cfg ck st), (loaded cfg ck (loaded cfg ck st)).
  split; [by apply load_model_run|]. split.
  - apply load_model_run; [done| |].
    + unfold model_accepts. simpl.
      by rewrite bool_decide_true, shapes_agree_refl.
    + unfold optimizer_accepts. simpl.
      rewrite (same_sizes_params _ _ _ Hparams), Hsz.
      rewrite bool_decide_true; [done|].
      by rewrite length_map, length_zip_with, <- Hlen, Nat.min_id.
  - split; [done|]. split; [|done].
    unfold loaded at 1. simpl. by rewrite (update_group_params _ _ _ Hparams).
Qed.

(** X7: [save_checkpoint] overwrites: after two saves to one path the
    files are those the second alone would leave; the model and the
    optimizer are not modified, and no other path is touched. *)
Theorem save_checkpoint_overwrites (path : string) (e1 e2 : Z) (st : St) :
  let r := (save_checkpoint path e1 ;; save_checkpoint path e2) st in
  r.1 = Ok tt
  /\ fs r.2 = fs (save_checkpoint path e2 st).2
  /\ model r.2 = model st
  /\ optimizer r.2 = optimizer st
  /\ forall p, p <> path -> fs r.2 !! p = fs st !! p.
Proof.
  intros r. unfold r, bind. rewrite save_checkpoint_run. cbv beta iota.
  rewrite !save_checkpoint_run. simpl.
  split; [done|]. split; [apply insert_insert_eq|].
  split; [done|]. split; [done|].
  intros p Hp. by rewrite !lookup_insert_ne.
Qed.

Section BatchLoop.
Context (laws : FrameworkLaws F).

(** X4: with flags that fit the model and labels among the ten classes,
    over a well-formed loader with a positive batch size the batch loop
    returns with every sample counted once ([total_checked] is the size of
    the dataset, [num_correct] at most that) and one loss per batch; it
    prints nothing, touches no file, and leaves the model in the mode it was
    in and the optimizer's parameter groups as they were. *)
Theorem batch_loop_counts (fl : Flags) (loader : DataLoader) (st : St) :
  input_fits fl (model st) ->
  labels_fit (data_items (dl_dataset loader)) ->
  data_wf (dl_dataset loader) ->
  0 < dl_batch_size loader ->
  let n := Z.of_nat (data_len (dl_dataset loader)) in
  exists num_correct losses st',
    batch_loop fl loader st = (Ok (num_correct, n, losses), st')
    /\ 0 <= num_correct <= n
    /\ Z.of_nat (length losses) = ceil_div n (dl_batch_size loader)
    /\ out st' = out st
    /\ fs st' = fs st
    /\ m_training (model st') = m_training (model st)
    /\ param_groups (optimizer st') = param_groups (optimizer st).
Proof.
  intros _ _ Hwf Hpos n.
  destruct (batch_loop_ok laws fl loader st Hwf Hpos)
    as (nc & losses & st' & Hloop & Hnc & Hls & Hframe).
  exists nc, losses, st'. destruct Hframe. simpl in *.
  repeat split; try done; try lia.
  rewrite Hls. fold n. rewrite Z2Nat.id; [done|].
  unfold ceil_div. apply Z.div_pos; lia.
Qed.

End BatchLoop.
End Properties.

(** * The properties on the small framework *)

Lemma toy_dataset_labels (n : nat) : labels_fit (d_items (toy_dataset n)).
Proof.
  unfold labels_fit, toy_dataset. cbn [d_items].
  apply List.Forall_map, Forall_true. intros i. cbn [snd]. unfold num_classes.
  pose proof (Z.mod_pos_bound (Z.of_nat i) 3). lia.
Qed.

Lemma toy_cifar_length : Z.of_nat (length (cifar_train toy_cifar)) = 50000.
Proof.
  change (cifar_train toy_cifar)
    with (map (fun i => (Z.of_nat i, Z.of_nat i mod 3)) (seq 0 (Z.to_nat 50000))).
  rewrite length_map, length_seq. lia.
Qed.

Lemma check_accuracy_range_witness :
  exists acc st',
    check_accuracy (F := toy) (mkFlags true false) (toy_loader 3 2) toy_st
    = (Ok acc, st')
    /\ (0 <= acc)%Q /\ (acc <= 100)%Q.
Proof.
  refine (proj1 (check_accuracy_range (F := toy) toy_laws (mkFlags true false)
                   (toy_loader 3 2) toy_st [([0; 1], [0; 1]); ([2], [2])] _) _).
  - reflexivity.
  - discriminate.
Defined.

Lemma check_accuracy_frame_witness :
  let r := check_accuracy (F := toy) (mkFlags false true) (toy_loader 5 2) toy_st in
  m_state (model r.2) = m_state (model toy_st) /\
  m_arch (model r.2) = m_arch (model toy_st) /\
  optimizer r.2 = optimizer toy_st /\
  match r.1 with
  | Ok _ => m_training (model r.2) = true
  | Raise _ => True
  end.
Proof.
  exact (check_accuracy_frame (F := toy) toy_laws (mkFlags false true)
           (toy_loader 5 2) toy_st).
Defined.

Lemma epoch_without_batches_witness :
  exists st',
    epoch_body (F := toy) (mkFlags true false) init_config
               (toy_loader 0 2) (toy_loader 3 2) 0 toy_st
    = (Raise ZeroDivisionError, st')
    /\ out st' = out toy_st ++ (if save_model init_config
                                then [PrintBlank; PrintSaving] else [])
    /\ calls st' = calls toy_st.
Proof.
  refine (epoch_without_batches (F := toy) (mkFlags true false) init_config
            (toy_loader 0 2) (toy_loader 3 2) 0 toy_st _).
  reflexivity.
Defined.

Lemma epoch_batch_iterations_witness :
  exists kv st',
    epoch_body (F := toy) (mkFlags true false) init_config
               (toy_loader 4 2) (toy_loader 3 2) 0 toy_st
    = (Ok tt, st')
    /\ calls st' = calls toy_st ++ concat (replicate 2 batch_calls)
                   ++ replicate kv CallForward.
Proof.
  refine (proj2 (epoch_batch_iterations (F := toy) toy_laws (mkFlags true false)
                   init_config (toy_loader 4 2) (toy_loader 3 2) 0 toy_st eq_refl
                          (toy_dataset_labels 4) I _)
                _ I _).
  - reflexivity.
  - reflexivity.
  - discriminate.
Defined.

Lemma load_model_overrides_witness :
  exists st',
    load_model (F := toy) init_config "ck" toy_saved_st = (Ok tt, st')
    /\ Forall2 (fun g saved =>
                  pg_lr g = learning_rate init_config
                  /\ pg_weight_decay g = weight_decay init_config
                  /\ pg_momentum g = pg_momentum saved
                  /\ pg_dampening g = pg_dampening saved
                  /\ pg_nesterov g = pg_nesterov saved)
               (param_groups (optimizer st'))
               [mkGroup [0; 1]%nat (1 # 2) (9 # 10) 0 (1 # 4) false].
Proof.
  refine (load_model_overrides (F := toy) init_config "ck"
            (mkCheckpoint (m_state toy_model) 4
               (optimizer_state_dict (toy_optimizer (1 # 2) (1 # 4))))
            toy_saved_st _ _ _).
  - reflexivity.
  - vm_compute. reflexivity.
  - vm_compute. reflexivity.
Defined.

Lemma load_data_split_witness :
  exists train_data validation_data train_loader validation_loader test_loader st',
    load_data (F := toy) init_config toy_cifar toy_st
    = (Ok (train_loader, validation_loader, test_loader), st')
    /\ dl_dataset train_loader = Part train_data
    /\ dl_dataset validation_loader = Part validation_data
    /\ d_items (ss_dataset train_data) = cifar_train toy_cifar
    /\ d_items (ss_dataset validation_data) = cifar_train toy_cifar
    /\ Z.of_nat (length (ss_indices train_data)) = 40000
    /\ Z.of_nat (length (ss_indices validation_data)) = 10000
    /\ Permutation (ss_indices train_data ++ ss_indices validation_data)
                   (seq 0 (length (cifar_train toy_cifar)))
    /\ (forall i, i ∈ ss_indices train_data -> i ∉ ss_indices validation_data).
Proof.
  refine (load_data_split (F := toy) toy_laws init_config toy_cifar toy_st
            toy_cifar_length _ _).
  - reflexivity.
  - discriminate.
Defined.

Lemma toy_resume_completes :
  exists sys',
    main (F := toy) (mkFlags true false) toy_resume_cfg true toy_cifar
         toy_resume_sys
    = (Ok tt, sys').
Proof.
  apply (main_completes (F := toy) toy_laws).
  - reflexivity.
  - discriminate.
  - discriminate.
  - apply toy_cifar_length.
  - reflexivity.
  - discriminate.
  - intros _. eexists. split; [reflexivity|].
    intros m o [= <-] [= <-]. split; vm_compute; reflexivity.
Qed.

Lemma load_model_ignores_epoch_witness :
  exists sys',
    main (F := toy) (mkFlags true false) toy_resume_cfg true toy_cifar
         toy_resume_sys
    = (Ok tt, sys')
    /\ @ck_epoch toy <$> sys_fs toy_resume_sys !! "ck" = Some 4
    /\ @ck_epoch toy <$> sys_fs sys' !! "ck" = Some 1.
Proof.
  destruct toy_resume_completes as [sys' Hmain].
  exists sys'. split; [exact Hmain|]. split; [reflexivity|].
  refine (proj2 (proj2 (load_model_ignores_epoch (F := toy) toy_laws
            (mkFlags true false) toy_resume_cfg toy_cifar toy_resume_sys sys'
            "ck"
            (mkCheckpoint (m_state toy_vgg) 4
               (optimizer_state_dict toy_vgg_optimizer))
            99 toy_resume_st _ _ _ Hmain))).
  - reflexivity.
  - reflexivity.
  - reflexivity.
Defined.

(** C3 as stated fails.  Saving at epoch 3 and loading back succeeds, but
    the optimizer is not the one saved: its learning rate is now the
    configuration's.  And the epoch of the file, 3 + 1, stays in the file:
    a run of [main] that loads it and trains one epoch with saving enabled
    writes epoch 1, the successor of a counter that started at 0. *)
Lemma roundtrip_counterexample :
  let r := (save_checkpoint (F := toy) "ck" 3 ;; load_model init_config "ck") toy_st in
  r.1 = Ok tt /\
  optimizer r.2 <> optimizer toy_st /\
  pg_lr <$> param_groups (optimizer toy_st) = [1 # 2]%Q /\
  pg_lr <$> param_groups (optimizer r.2) = [1 # 1000]%Q /\
  @ck_epoch toy <$> sys_fs toy_resume_sys !! "ck" = Some (3 + 1) /\
  exists sys',
    main (F := toy) (mkFlags true false) toy_resume_cfg true toy_cifar
         toy_resume_sys
    = (Ok tt, sys')
    /\ @ck_epoch toy <$> sys_fs sys' !! "ck" = Some 1.
Proof.
  split; [reflexivity|]. split.
  { intros Heq. apply (f_equal (fun o => pg_lr <$> param_groups o)) in Heq.
    vm_compute in Heq. discriminate. }
  split; [reflexivity|]. split; [reflexivity|]. split; [reflexivity|].
  destruct toy_resume_completes as [sys' Hmain]. exists sys'.
  split; [exact Hmain|].
  exact (main_saved_epoch (F := toy) toy_laws (mkFlags true false)
           toy_resume_cfg true toy_cifar toy_resume_sys sys' eq_refl eq_refl Hmain).
Qed.

(** C7 as stated fails at both ends of an epoch: with no training sample
    the batch loop makes its zero iterations and the epoch then raises at
    the mean loss; with training samples but an empty validation loader it
    raises in the evaluator. *)
Lemma epoch_counterexample :
  (epoch_body (F := toy) (mkFlags true false) init_config
              (toy_loader 0 2) (toy_loader 3 2) 0 toy_st).1
  = Raise ZeroDivisionError /\
  (epoch_body (F := toy) (mkFlags true false) init_config
              (toy_loader 4 2) (toy_loader 0 2) 0 toy_st).1
  = Raise ZeroDivisionError.
Proof. split; reflexivity. Qed.

(** * Further properties on the small framework *)

Lemma main_without_saving_keeps_files_witness :
  sys_fs (main (F := toy) (mkFlags true false) init_config true toy_cifar
               toy_resume_sys).2
  = sys_fs toy_resume_sys.
Proof.
  exact (main_without_saving_keeps_files (F := toy) (mkFlags true false)
           init_config true toy_cifar toy_resume_sys eq_refl).
Defined.

Lemma main_saves_configured_rates_witness :
  exists sys' ck,
    main (F := toy) (mkFlags true false) toy_resume_cfg true toy_cifar
         toy_resume_sys = (Ok tt, sys')
    /\ sys_fs sys' !! "ck" = Some ck
    /\ Forall (fun g => pg_lr g = (1 # 1000)%Q /\ pg_weight_decay g = 0%Q)
              (sd_param_groups (ck_optimizer ck)).
Proof.
  destruct toy_resume_completes as [sys' Hmain].
  destruct (main_saves_configured_rates (F := toy) (mkFlags true false)
              toy_resume_cfg true toy_cifar toy_resume_sys sys'
              eq_refl eq_refl Hmain) as (ck & Hck & Hrates).
  exists sys', ck. split; [exact Hmain|]. split; [exact Hck|exact Hrates].
Defined.

Lemma check_accuracy_counts_witness :
  exists c acc st',
    check_accuracy (F := toy) (mkFlags true false) (toy_loader 3 2) toy_st
    = (Ok acc, st')
    /\ 0 <= c <= 3
    /\ out st' = out toy_st ++ [PrintGot c 3 acc]
    /\ calls st' = calls toy_st ++ replicate 2 CallForward
    /\ optimizer st' = optimizer toy_st
    /\ fs st' = fs toy_st.
Proof.
  refine (check_accuracy_counts (F := toy) toy_laws (mkFlags true false)
            (toy_loader 3 2) toy_st eq_refl I _ _).
  - reflexivity.
  - discriminate.
Defined.

Lemma epoch_output_witness :
  exists mean c acc tacc st',
    epoch_body (F := toy) (mkFlags true false) toy_resume_cfg
               (toy_loader 4 2) (toy_loader 3 2) 0 toy_st = (Ok tt, st')
    /\ out st'
       = out toy_st ++ [PrintBlank; PrintSaving]
         ++ [PrintMeanLoss mean; PrintValidation; PrintGot c 3 acc;
             PrintTrainAcc tacc; PrintNewline]
    /\ (0 <= acc)%Q /\ (acc <= 100)%Q
    /\ (0 <= tacc)%Q /\ (tacc <= 1)%Q.
Proof.
  refine (epoch_output (F := toy) toy_laws (mkFlags true false) toy_resume_cfg
            (toy_loader 4 2) (toy_loader 3 2) 0 toy_st eq_refl
            (toy_dataset_labels 4) I _ _ I _ _).
  - reflexivity.
  - discriminate.
  - reflexivity.
  - discriminate.
Defined.

Lemma epoch_checkpoint_current_witness :
  exists st',
    epoch_body (F := toy) (mkFlags true false) toy_resume_cfg
               (toy_loader 4 2) (toy_loader 3 2) 6 toy_st = (Ok tt, st')
    /\ fs st' !! "ck"
       = Some (mkCheckpoint (m_state (model st')) 7
                            (optimizer_state_dict (optimizer st'))).
Proof.
  destruct (epoch_body_returns (F := toy) toy_laws (mkFlags true false)
              toy_resume_cfg (toy_loader 4 2) (toy_loader 3 2) 6 toy_st
              I eq_refl ltac:(discriminate) I ltac:(discriminate))
    as (kv & st' & Hrun & _).
  exists st'. split; [exact Hrun|].
  exact (epoch_checkpoint_current (F := toy) toy_laws (mkFlags true false)
           toy_resume_cfg (toy_loader 4 2) (toy_loader 3 2) 6 toy_st st'
           eq_refl Hrun).
Defined.

Lemma main_loop_trace_witness :
  exists st',
    main_loop (F := toy) (mkFlags true false) toy_resume_cfg true toy_cifar
              (enter toy_vgg toy_vgg_optimizer toy_resume_sys) = (Ok tt, st')
    /\ calls st' = calls (enter toy_vgg toy_vgg_optimizer toy_resume_sys)
                   ++ concat (replicate 1 (epoch_calls 625 157)).
Proof.
  refine (main_loop_trace (F := toy) toy_laws (mkFlags true false)
            toy_resume_cfg true toy_cifar
            (enter toy_vgg toy_vgg_optimizer toy_resume_sys)
            eq_refl (toy_dataset_labels _) toy_cifar_length _ _ _).
  - reflexivity.
  - discriminate.
  - intros _. eexists. split; [reflexivity|]. split; vm_compute; reflexivity.
Defined.

Lemma main_loop_missing_file_witness :
  exists st',
    main_loop (F := toy) (mkFlags true false) toy_resume_cfg true toy_cifar
              toy_st = (Raise FileNotFoundError, st')
    /\ out st' = out toy_st
    /\ calls st' = calls toy_st
    /\ fs st' = fs toy_st
    /\ model st' = model toy_st
    /\ optimizer st' = optimizer toy_st.
Proof.
  refine (main_loop_missing_file (F := toy) (mkFlags true false)
            toy_resume_cfg toy_cifar toy_st toy_cifar_length _ _ _).
  - reflexivity.
  - discriminate.
  - reflexivity.
Defined.

Lemma load_data_rejects_witness :
  (load_data (F := toy) init_config (@mkCifar10 toy [] []) toy_st).1
  = Raise ValueError.
Proof.
  refine (proj1 (load_data_rejects (F := toy) init_config (@mkCifar10 toy [] [])
                   toy_st (or_introl _))).
  discriminate.
Defined.

Lemma load_model_not_atomic_witness :
  (load_model (F := toy) init_config "ck"
              (set_optimizer (@mkOptimizer toy [] ∅) toy_saved_st)).1
  = Raise ValueError.
Proof.
  exact (f_equal fst
           (load_model_not_atomic (F := toy) init_config "ck"
              (mkCheckpoint (m_state toy_model) 4
                 (optimizer_state_dict (toy_optimizer (1 # 2) (1 # 4))))
              (set_optimizer (@mkOptimizer toy [] ∅) toy_saved_st)
              eq_refl eq_refl eq_refl)).
Defined.

Lemma load_model_twice_witness :
  exists st1 st2,
    load_model (F := toy) init_config "ck" toy_saved_st = (Ok tt, st1)
    /\ load_model init_config "ck" st1 = (Ok tt, st2)
    /\ model st2 = model st1
    /\ optimizer st2 = optimizer st1
    /\ out st2 = out st1 ++ [PrintLoaded].
Proof.
  exact (load_model_twice (F := toy) init_config "ck"
           (mkCheckpoint (m_state toy_model) 4
              (optimizer_state_dict (toy_optimizer (1 # 2) (1 # 4))))
           toy_saved_st eq_refl eq_refl eq_refl).
Defined.

Lemma batch_loop_counts_witness :
  exists num_correct losses st',
    batch_loop (F := toy) (mkFlags true false) (toy_loader 5 2) toy_st
    = (Ok (num_correct, 5, losses), st')
    /\ 0 <= num_correct <= 5
    /\ Z.of_nat (length losses) = 3
    /\ out st' = out toy_st
    /\ fs st' = fs toy_st
    /\ m_training (model st') = m_training (model toy_st)
    /\ param_groups (optimizer st') = param_groups (optimizer toy_st).
Proof.
  exact (batch_loop_counts (F := toy) toy_laws (mkFlags true false)
           (toy_loader 5 2) toy_st eq_refl (toy_dataset_labels 5)
           I eq_refl).
Defined.
